(** * Call-count instrumentation of the SWT Photon native binding layer

    Shallow embedding of
    [bundles/org.eclipse.swt/Eclipse SWT PI/photon/library/os_stats.h]:
    the two macros [OS_NATIVE_ENTER] and [OS_NATIVE_EXIT] in both build
    configurations ([NATIVE_STATS] defined or not), the two tables they
    refer to, and the 285 generated [*_FUNC] identifier constants.

    C statements are state transformers over the two tables; a statement
    whose behaviour C leaves undefined because it indexes an array outside
    its bounds yields [None]. Counters have the C type [int]: 32-bit
    two's-complement integers, carried as [Z] with the wrap-around of [++]
    written out. *)

From Stdlib Require Import ZArith String Ascii List Lia Sorted Permutation.
From stdpp Require Import base tactics option list strings.

Local Open Scope Z_scope.
Local Open Scope string_scope.

(** ** The C type [int] *)

Module CInt.

Definition width : Z := 32.
Definition modulus : Z := 2 ^ width.
Definition INT_MAX : Z := 2147483647.
Definition INT_MIN : Z := -2147483648.

Definition in_range (z : Z) : Prop := INT_MIN <= z <= INT_MAX.

(** The [int] with the same residue modulo [2^32] as [z]. *)
Definition wrap (z : Z) : Z := (z - INT_MIN) mod modulus + INT_MIN.

(** The value stored by [x++] for [x : int]. ISO C leaves the result at
    [INT_MAX] undefined; the model takes what a two's-complement target
    stores, the wrapped sum. *)
Definition incr (x : Z) : Z := wrap (x + 1).

End CInt.

(** ** Build configuration: [#ifdef NATIVE_STATS] *)

Inductive config : Type :=
  | NATIVE_STATS_defined
  | NATIVE_STATS_undefined.

(** ** The generated identifier constants ([#define <name>_FUNC <n>]) *)

Definition PfDecomposeStemToID_FUNC : Z := 0.
Definition PfExtentText__Lorg_eclipse_swt_internal_photon_PhRect_1t_2Lorg_eclipse_swt_internal_photon_PhPoint_1t_2III_FUNC : Z := 1.
Definition PfExtentText__Lorg_eclipse_swt_internal_photon_PhRect_1t_2Lorg_eclipse_swt_internal_photon_PhPoint_1t_2_3B_3BI_FUNC : Z := 2.
Definition PfExtentWideText_FUNC : Z := 3.
Definition PfFontDescription_FUNC : Z := 4.
Definition PfFontFlags_FUNC : Z := 5.
Definition PfFontSize_FUNC : Z := 6.
Definition PfFreeFont_FUNC : Z := 7.
Definition PfGenerateFontName_FUNC : Z := 8.
Definition PfLoadMetrics_FUNC : Z := 9.
Definition PfQueryFontInfo_FUNC : Z := 10.
Definition PfQueryFonts_FUNC : Z := 11.
Definition PgAlphaOff_FUNC : Z := 12.
Definition PgAlphaOn_FUNC : Z := 13.
Definition PgCreateGC_FUNC : Z := 14.
Definition PgDestroyGC_FUNC : Z := 15.
Definition PgDrawArc_FUNC : Z := 16.
Definition PgDrawArrow_FUNC : Z := 17.
Definition PgDrawBitmap_FUNC : Z := 18.
Definition PgDrawEllipse_FUNC : Z := 19.
Definition PgDrawGradient_FUNC : Z := 20.
Definition PgDrawILine_FUNC : Z := 21.
Definition PgDrawIPixel_FUNC : Z := 22.
Definition PgDrawIRect_FUNC : Z := 23.
Definition PgDrawImage_FUNC : Z := 24.
Definition PgDrawMultiTextArea_FUNC : Z := 25.
Definition PgDrawPhImageRectmx_FUNC : Z := 26.
Definition PgDrawPolygon_FUNC : Z := 27.
Definition PgDrawRoundRect_FUNC : Z := 28.
Definition PgDrawTImage_FUNC : Z := 29.
Definition PgDrawText_FUNC : Z := 30.
Definition PgExtentMultiText_FUNC : Z := 31.
Definition PgFlush_FUNC : Z := 32.
Definition PgGetVideoMode_FUNC : Z := 33.
Definition PgGetVideoModeInfo_FUNC : Z := 34.
Definition PgReadScreen_FUNC : Z := 35.
Definition PgReadScreenSize_FUNC : Z := 36.
Definition PgSetAlpha_FUNC : Z := 37.
Definition PgSetClipping_FUNC : Z := 38.
Definition PgSetDrawBufferSize_FUNC : Z := 39.
Definition PgSetDrawMode_FUNC : Z := 40.
Definition PgSetFillColor_FUNC : Z := 41.
Definition PgSetFillTransPat_FUNC : Z := 42.
Definition PgSetFont_FUNC : Z := 43.
Definition PgSetGC_FUNC : Z := 44.
Definition PgSetMultiClip_FUNC : Z := 45.
Definition PgSetPalette_FUNC : Z := 46.
Definition PgSetRegion_FUNC : Z := 47.
Definition PgSetStrokeCap_FUNC : Z := 48.
Definition PgSetStrokeColor_FUNC : Z := 49.
Definition PgSetStrokeDash_FUNC : Z := 50.
Definition PgSetStrokeWidth_FUNC : Z := 51.
Definition PgSetTextColor_FUNC : Z := 52.
Definition PgSetTextXORColor_FUNC : Z := 53.
Definition PgSetUserClip_FUNC : Z := 54.
Definition PgShmemCreate_FUNC : Z := 55.
Definition PgShmemDestroy_FUNC : Z := 56.
Definition PhAddMergeTiles_FUNC : Z := 57.
Definition PhAreaToRect_FUNC : Z := 58.
Definition PhBlit_FUNC : Z := 59.
Definition PhClipTilings_FUNC : Z := 60.
Definition PhClipboardCopy_FUNC : Z := 61.
Definition PhClipboardCopyString_FUNC : Z := 62.
Definition PhClipboardPasteFinish_FUNC : Z := 63.
Definition PhClipboardPasteStart_FUNC : Z := 64.
Definition PhClipboardPasteString_FUNC : Z := 65.
Definition PhClipboardPasteType_FUNC : Z := 66.
Definition PhClipboardPasteTypeN_FUNC : Z := 67.
Definition PhCoalesceTiles_FUNC : Z := 68.
Definition PhCopyTiles_FUNC : Z := 69.
Definition PhCreateImage_FUNC : Z := 70.
Definition PhDCSetCurrent_FUNC : Z := 71.
Definition PhDeTranslateTiles_FUNC : Z := 72.
Definition PhEventNext_FUNC : Z := 73.
Definition PhEventPeek_FUNC : Z := 74.
Definition PhFreeTiles_FUNC : Z := 75.
Definition PhGetData_FUNC : Z := 76.
Definition PhGetMsgSize_FUNC : Z := 77.
Definition PhGetRects_FUNC : Z := 78.
Definition PhGetTile_FUNC : Z := 79.
Definition PhInitDrag_FUNC : Z := 80.
Definition PhInputGroup_FUNC : Z := 81.
Definition PhIntersectTilings_FUNC : Z := 82.
Definition PhKeyToMb_FUNC : Z := 83.
Definition PhMakeGhostBitmap_FUNC : Z := 84.
Definition PhMakeTransBitmap_FUNC : Z := 85.
Definition PhMergeTiles_FUNC : Z := 86.
Definition PhMoveCursorAbs_FUNC : Z := 87.
Definition PhQueryCursor_FUNC : Z := 88.
Definition PhQueryRids_FUNC : Z := 89.
Definition PhRectIntersect_FUNC : Z := 90.
Definition PhRectUnion__II_FUNC : Z := 91.
Definition PhRectUnion__Lorg_eclipse_swt_internal_photon_PhRect_1t_2Lorg_eclipse_swt_internal_photon_PhRect_1t_2_FUNC : Z := 92.
Definition PhRectsToTiles_FUNC : Z := 93.
Definition PhRegionQuery_FUNC : Z := 94.
Definition PhReleaseImage_FUNC : Z := 95.
Definition PhSortTiles_FUNC : Z := 96.
Definition PhTilesToRects_FUNC : Z := 97.
Definition PhTranslateTiles_FUNC : Z := 98.
Definition PhWindowQueryVisible_FUNC : Z := 99.
Definition PiCropImage_FUNC : Z := 100.
Definition PiDuplicateImage_FUNC : Z := 101.
Definition PmMemCreateMC_FUNC : Z := 102.
Definition PmMemFlush_FUNC : Z := 103.
Definition PmMemReleaseMC_FUNC : Z := 104.
Definition PmMemStart_FUNC : Z := 105.
Definition PmMemStop_FUNC : Z := 106.
Definition PtAddCallback_FUNC : Z := 107.
Definition PtAddEventHandler_FUNC : Z := 108.
Definition PtAddFilterCallback_FUNC : Z := 109.
Definition PtAddHotkeyHandler_FUNC : Z := 110.
Definition PtAlert_FUNC : Z := 111.
Definition PtAppAddInput_FUNC : Z := 112.
Definition PtAppAddWorkProc_FUNC : Z := 113.
Definition PtAppCreatePulse_FUNC : Z := 114.
Definition PtAppDeletePulse_FUNC : Z := 115.
Definition PtAppProcessEvent_FUNC : Z := 116.
Definition PtAppPulseTrigger_FUNC : Z := 117.
Definition PtAppRemoveInput_FUNC : Z := 118.
Definition PtAppRemoveWorkProc_FUNC : Z := 119.
Definition PtBeep_FUNC : Z := 120.
Definition PtBlit_FUNC : Z := 121.
Definition PtBlockAllWindows_FUNC : Z := 122.
Definition PtBlockWindow_FUNC : Z := 123.
Definition PtButton_FUNC : Z := 124.
Definition PtCalcBorder_FUNC : Z := 125.
Definition PtCalcCanvas_FUNC : Z := 126.
Definition PtClippedBlit_FUNC : Z := 127.
Definition PtColorSelect_FUNC : Z := 128.
Definition PtComboBox_FUNC : Z := 129.
Definition PtContainer_FUNC : Z := 130.
Definition PtContainerFindFocus_FUNC : Z := 131.
Definition PtContainerFocusNext_FUNC : Z := 132.
Definition PtContainerFocusPrev_FUNC : Z := 133.
Definition PtContainerGiveFocus_FUNC : Z := 134.
Definition PtContainerHold_FUNC : Z := 135.
Definition PtContainerRelease_FUNC : Z := 136.
Definition PtCreateAppContext_FUNC : Z := 137.
Definition PtCreateWidget_FUNC : Z := 138.
Definition PtCreateWidgetClass_FUNC : Z := 139.
Definition PtDamageExtent_FUNC : Z := 140.
Definition PtDamageWidget_FUNC : Z := 141.
Definition PtDestroyWidget_FUNC : Z := 142.
Definition PtDisjoint_FUNC : Z := 143.
Definition PtEnter_FUNC : Z := 144.
Definition PtEventHandler_FUNC : Z := 145.
Definition PtExtentWidget_FUNC : Z := 146.
Definition PtExtentWidgetFamily_FUNC : Z := 147.
Definition PtFileSelection_FUNC : Z := 148.
Definition PtFindDisjoint_FUNC : Z := 149.
Definition PtFlush_FUNC : Z := 150.
Definition PtFontSelection_FUNC : Z := 151.
Definition PtForwardWindowEvent_FUNC : Z := 152.
Definition PtFrameSize_FUNC : Z := 153.
Definition PtGetAbsPosition_FUNC : Z := 154.
Definition PtGetResources_FUNC : Z := 155.
Definition PtGlobalFocusNext_FUNC : Z := 156.
Definition PtGlobalFocusNextContainer_FUNC : Z := 157.
Definition PtGlobalFocusPrev_FUNC : Z := 158.
Definition PtGlobalFocusPrevContainer_FUNC : Z := 159.
Definition PtGroup_FUNC : Z := 160.
Definition PtHit_FUNC : Z := 161.
Definition PtHold_FUNC : Z := 162.
Definition PtInflateBalloon_FUNC : Z := 163.
Definition PtInit_FUNC : Z := 164.
Definition PtIsFocused_FUNC : Z := 165.
Definition PtLabel_FUNC : Z := 166.
Definition PtLeave_FUNC : Z := 167.
Definition PtList_FUNC : Z := 168.
Definition PtListAddItems_FUNC : Z := 169.
Definition PtListDeleteAllItems_FUNC : Z := 170.
Definition PtListDeleteItemPos_FUNC : Z := 171.
Definition PtListGotoPos_FUNC : Z := 172.
Definition PtListItemPos_FUNC : Z := 173.
Definition PtListReplaceItemPos_FUNC : Z := 174.
Definition PtListSelectPos_FUNC : Z := 175.
Definition PtListUnselectPos_FUNC : Z := 176.
Definition PtMainLoop_FUNC : Z := 177.
Definition PtMenu_FUNC : Z := 178.
Definition PtMenuBar_FUNC : Z := 179.
Definition PtMenuButton_FUNC : Z := 180.
Definition PtMultiText_FUNC : Z := 181.
Definition PtNextTopLevelWidget_FUNC : Z := 182.
Definition PtPane_FUNC : Z := 183.
Definition PtPanelGroup_FUNC : Z := 184.
Definition PtPositionMenu_FUNC : Z := 185.
Definition PtProgress_FUNC : Z := 186.
Definition PtReParentWidget_FUNC : Z := 187.
Definition PtRealizeWidget_FUNC : Z := 188.
Definition PtRegion_FUNC : Z := 189.
Definition PtRelease_FUNC : Z := 190.
Definition PtRemoveCallback_FUNC : Z := 191.
Definition PtRemoveHotkeyHandler_FUNC : Z := 192.
Definition PtScrollArea_FUNC : Z := 193.
Definition PtScrollContainer_FUNC : Z := 194.
Definition PtScrollbar_FUNC : Z := 195.
Definition PtSendEventToWidget_FUNC : Z := 196.
Definition PtSeparator_FUNC : Z := 197.
Definition PtSetAreaFromWidgetCanvas_FUNC : Z := 198.
Definition PtSetParentWidget_FUNC : Z := 199.
Definition PtSetResource_FUNC : Z := 200.
Definition PtSetResources_FUNC : Z := 201.
Definition PtSlider_FUNC : Z := 202.
Definition PtSuperClassDraw_FUNC : Z := 203.
Definition PtSyncWidget_FUNC : Z := 204.
Definition PtText_FUNC : Z := 205.
Definition PtTextGetSelection_FUNC : Z := 206.
Definition PtTextModifyText__IIIIII_FUNC : Z := 207.
Definition PtTextModifyText__IIII_3BI_FUNC : Z := 208.
Definition PtTextSetSelection_FUNC : Z := 209.
Definition PtTimer_FUNC : Z := 210.
Definition PtToggleButton_FUNC : Z := 211.
Definition PtToolbar_FUNC : Z := 212.
Definition PtUnblockWindows_FUNC : Z := 213.
Definition PtUnrealizeWidget_FUNC : Z := 214.
Definition PtValidParent_FUNC : Z := 215.
Definition PtWebClient_FUNC : Z := 216.
Definition PtWidgetArea_FUNC : Z := 217.
Definition PtWidgetBrotherBehind_FUNC : Z := 218.
Definition PtWidgetBrotherInFront_FUNC : Z := 219.
Definition PtWidgetCanvas__II_FUNC : Z := 220.
Definition PtWidgetCanvas__ILorg_eclipse_swt_internal_photon_PhRect_1t_2_FUNC : Z := 221.
Definition PtWidgetChildBack_FUNC : Z := 222.
Definition PtWidgetChildFront_FUNC : Z := 223.
Definition PtWidgetClass_FUNC : Z := 224.
Definition PtWidgetExtent__II_FUNC : Z := 225.
Definition PtWidgetExtent__ILorg_eclipse_swt_internal_photon_PhRect_1t_2_FUNC : Z := 226.
Definition PtWidgetFlags_FUNC : Z := 227.
Definition PtWidgetInsert_FUNC : Z := 228.
Definition PtWidgetIsClassMember_FUNC : Z := 229.
Definition PtWidgetIsRealized_FUNC : Z := 230.
Definition PtWidgetOffset_FUNC : Z := 231.
Definition PtWidgetParent_FUNC : Z := 232.
Definition PtWidgetPreferredSize_FUNC : Z := 233.
Definition PtWidgetRid_FUNC : Z := 234.
Definition PtWidgetToBack_FUNC : Z := 235.
Definition PtWidgetToFront_FUNC : Z := 236.
Definition PtWindow_FUNC : Z := 237.
Definition PtWindowFocus_FUNC : Z := 238.
Definition PtWindowGetState_FUNC : Z := 239.
Definition PtWindowToBack_FUNC : Z := 240.
Definition PtWindowToFront_FUNC : Z := 241.
Definition free_FUNC : Z := 242.
Definition getenv_FUNC : Z := 243.
Definition malloc_FUNC : Z := 244.
Definition memmove__III_FUNC : Z := 245.
Definition memmove__ILorg_eclipse_swt_internal_photon_PgAlpha_1t_2I_FUNC : Z := 246.
Definition memmove__ILorg_eclipse_swt_internal_photon_PhArea_1t_2I_FUNC : Z := 247.
Definition memmove__ILorg_eclipse_swt_internal_photon_PhCursorDef_1t_2I_FUNC : Z := 248.
Definition memmove__ILorg_eclipse_swt_internal_photon_PhEvent_1t_2I_FUNC : Z := 249.
Definition memmove__ILorg_eclipse_swt_internal_photon_PhImage_1t_2I_FUNC : Z := 250.
Definition memmove__ILorg_eclipse_swt_internal_photon_PhPoint_1t_2I_FUNC : Z := 251.
Definition memmove__ILorg_eclipse_swt_internal_photon_PhPointerEvent_1t_2I_FUNC : Z := 252.
Definition memmove__ILorg_eclipse_swt_internal_photon_PhRect_1t_2I_FUNC : Z := 253.
Definition memmove__ILorg_eclipse_swt_internal_photon_PhTile_1t_2I_FUNC : Z := 254.
Definition memmove__ILorg_eclipse_swt_internal_photon_PtTextCallback_1t_2I_FUNC : Z := 255.
Definition memmove__ILorg_eclipse_swt_internal_photon_PtWebClientData_1t_2I_FUNC : Z := 256.
Definition memmove__I_3BI_FUNC : Z := 257.
Definition memmove__I_3II_FUNC : Z := 258.
Definition memmove__Lorg_eclipse_swt_internal_photon_FontDetails_2II_FUNC : Z := 259.
Definition memmove__Lorg_eclipse_swt_internal_photon_PgAlpha_1t_2II_FUNC : Z := 260.
Definition memmove__Lorg_eclipse_swt_internal_photon_PgMap_1t_2II_FUNC : Z := 261.
Definition memmove__Lorg_eclipse_swt_internal_photon_PhClipHeader_2II_FUNC : Z := 262.
Definition memmove__Lorg_eclipse_swt_internal_photon_PhEvent_1t_2II_FUNC : Z := 263.
Definition memmove__Lorg_eclipse_swt_internal_photon_PhImage_1t_2II_FUNC : Z := 264.
Definition memmove__Lorg_eclipse_swt_internal_photon_PhKeyEvent_1t_2II_FUNC : Z := 265.
Definition memmove__Lorg_eclipse_swt_internal_photon_PhPointerEvent_1t_2II_FUNC : Z := 266.
Definition memmove__Lorg_eclipse_swt_internal_photon_PhRect_1t_2II_FUNC : Z := 267.
Definition memmove__Lorg_eclipse_swt_internal_photon_PhTile_1t_2II_FUNC : Z := 268.
Definition memmove__Lorg_eclipse_swt_internal_photon_PhWindowEvent_1t_2II_FUNC : Z := 269.
Definition memmove__Lorg_eclipse_swt_internal_photon_PtCallbackInfo_1t_2II_FUNC : Z := 270.
Definition memmove__Lorg_eclipse_swt_internal_photon_PtScrollbarCallback_1t_2II_FUNC : Z := 271.
Definition memmove__Lorg_eclipse_swt_internal_photon_PtTextCallback_1t_2II_FUNC : Z := 272.
Definition memmove__Lorg_eclipse_swt_internal_photon_PtWebDataReqCallback_1t_2II_FUNC : Z := 273.
Definition memmove__Lorg_eclipse_swt_internal_photon_PtWebMetaDataCallback_1t_2II_FUNC : Z := 274.
Definition memmove__Lorg_eclipse_swt_internal_photon_PtWebStatusCallback_1t_2II_FUNC : Z := 275.
Definition memmove__Lorg_eclipse_swt_internal_photon_PtWebWindowCallback_1t_2II_FUNC : Z := 276.
Definition memmove___3BII_FUNC : Z := 277.
Definition memmove___3BLorg_eclipse_swt_internal_photon_PhClipHeader_2I_FUNC : Z := 278.
Definition memmove___3III_FUNC : Z := 279.
Definition memmove___3SII_FUNC : Z := 280.
Definition memset_FUNC : Z := 281.
Definition strdup_FUNC : Z := 282.
Definition strlen_FUNC : Z := 283.
Definition uname_FUNC : Z := 284.
Definition FUNC_defines : list (string * Z) :=
  [
    ("PfDecomposeStemToID_FUNC", PfDecomposeStemToID_FUNC);
    ("PfExtentText__Lorg_eclipse_swt_internal_photon_PhRect_1t_2Lorg_eclipse_swt_internal_photon_PhPoint_1t_2III_FUNC", PfExtentText__Lorg_eclipse_swt_internal_photon_PhRect_1t_2Lorg_eclipse_swt_internal_photon_PhPoint_1t_2III_FUNC);
    ("PfExtentText__Lorg_eclipse_swt_internal_photon_PhRect_1t_2Lorg_eclipse_swt_internal_photon_PhPoint_1t_2_3B_3BI_FUNC", PfExtentText__Lorg_eclipse_swt_internal_photon_PhRect_1t_2Lorg_eclipse_swt_internal_photon_PhPoint_1t_2_3B_3BI_FUNC);
    ("PfExtentWideText_FUNC", PfExtentWideText_FUNC);
    ("PfFontDescription_FUNC", PfFontDescription_FUNC);
    ("PfFontFlags_FUNC", PfFontFlags_FUNC);
    ("PfFontSize_FUNC", PfFontSize_FUNC);
    ("PfFreeFont_FUNC", PfFreeFont_FUNC);
    ("PfGenerateFontName_FUNC", PfGenerateFontName_FUNC);
    ("PfLoadMetrics_FUNC", PfLoadMetrics_FUNC);
    ("PfQueryFontInfo_FUNC", PfQueryFontInfo_FUNC);
    ("PfQueryFonts_FUNC", PfQueryFonts_FUNC);
    ("PgAlphaOff_FUNC", PgAlphaOff_FUNC);
    ("PgAlphaOn_FUNC", PgAlphaOn_FUNC);
    ("PgCreateGC_FUNC", PgCreateGC_FUNC);
    ("PgDestroyGC_FUNC", PgDestroyGC_FUNC);
    ("PgDrawArc_FUNC", PgDrawArc_FUNC);
    ("PgDrawArrow_FUNC", PgDrawArrow_FUNC);
    ("PgDrawBitmap_FUNC", PgDrawBitmap_FUNC);
    ("PgDrawEllipse_FUNC", PgDrawEllipse_FUNC);
    ("PgDrawGradient_FUNC", PgDrawGradient_FUNC);
    ("PgDrawILine_FUNC", PgDrawILine_FUNC);
    ("PgDrawIPixel_FUNC", PgDrawIPixel_FUNC);
    ("PgDrawIRect_FUNC", PgDrawIRect_FUNC);
    ("PgDrawImage_FUNC", PgDrawImage_FUNC);
    ("PgDrawMultiTextArea_FUNC", PgDrawMultiTextArea_FUNC);
    ("PgDrawPhImageRectmx_FUNC", PgDrawPhImageRectmx_FUNC);
    ("PgDrawPolygon_FUNC", PgDrawPolygon_FUNC);
    ("PgDrawRoundRect_FUNC", PgDrawRoundRect_FUNC);
    ("PgDrawTImage_FUNC", PgDrawTImage_FUNC);
    ("PgDrawText_FUNC", PgDrawText_FUNC);
    ("PgExtentMultiText_FUNC", PgExtentMultiText_FUNC);
    ("PgFlush_FUNC", PgFlush_FUNC);
    ("PgGetVideoMode_FUNC", PgGetVideoMode_FUNC);
    ("PgGetVideoModeInfo_FUNC", PgGetVideoModeInfo_FUNC);
    ("PgReadScreen_FUNC", PgReadScreen_FUNC);
    ("PgReadScreenSize_FUNC", PgReadScreenSize_FUNC);
    ("PgSetAlpha_FUNC", PgSetAlpha_FUNC);
    ("PgSetClipping_FUNC", PgSetClipping_FUNC);
    ("PgSetDrawBufferSize_FUNC", PgSetDrawBufferSize_FUNC);
    ("PgSetDrawMode_FUNC", PgSetDrawMode_FUNC);
    ("PgSetFillColor_FUNC", PgSetFillColor_FUNC);
    ("PgSetFillTransPat_FUNC", PgSetFillTransPat_FUNC);
    ("PgSetFont_FUNC", PgSetFont_FUNC);
    ("PgSetGC_FUNC", PgSetGC_FUNC);
    ("PgSetMultiClip_FUNC", PgSetMultiClip_FUNC);
    ("PgSetPalette_FUNC", PgSetPalette_FUNC);
    ("PgSetRegion_FUNC", PgSetRegion_FUNC);
    ("PgSetStrokeCap_FUNC", PgSetStrokeCap_FUNC);
    ("PgSetStrokeColor_FUNC", PgSetStrokeColor_FUNC);
    ("PgSetStrokeDash_FUNC", PgSetStrokeDash_FUNC);
    ("PgSetStrokeWidth_FUNC", PgSetStrokeWidth_FUNC);
    ("PgSetTextColor_FUNC", PgSetTextColor_FUNC);
    ("PgSetTextXORColor_FUNC", PgSetTextXORColor_FUNC);
    ("PgSetUserClip_FUNC", PgSetUserClip_FUNC);
    ("PgShmemCreate_FUNC", PgShmemCreate_FUNC);
    ("PgShmemDestroy_FUNC", PgShmemDestroy_FUNC);
    ("PhAddMergeTiles_FUNC", PhAddMergeTiles_FUNC);
    ("PhAreaToRect_FUNC", PhAreaToRect_FUNC);
    ("PhBlit_FUNC", PhBlit_FUNC);
    ("PhClipTilings_FUNC", PhClipTilings_FUNC);
    ("PhClipboardCopy_FUNC", PhClipboardCopy_FUNC);
    ("PhClipboardCopyString_FUNC", PhClipboardCopyString_FUNC);
    ("PhClipboardPasteFinish_FUNC", PhClipboardPasteFinish_FUNC);
    ("PhClipboardPasteStart_FUNC", PhClipboardPasteStart_FUNC);
    ("PhClipboardPasteString_FUNC", PhClipboardPasteString_FUNC);
    ("PhClipboardPasteType_FUNC", PhClipboardPasteType_FUNC);
    ("PhClipboardPasteTypeN_FUNC", PhClipboardPasteTypeN_FUNC);
    ("PhCoalesceTiles_FUNC", PhCoalesceTiles_FUNC);
    ("PhCopyTiles_FUNC", PhCopyTiles_FUNC);
    ("PhCreateImage_FUNC", PhCreateImage_FUNC);
    ("PhDCSetCurrent_FUNC", PhDCSetCurrent_FUNC);
    ("PhDeTranslateTiles_FUNC", PhDeTranslateTiles_FUNC);
    ("PhEventNext_FUNC", PhEventNext_FUNC);
    ("PhEventPeek_FUNC", PhEventPeek_FUNC);
    ("PhFreeTiles_FUNC", PhFreeTiles_FUNC);
    ("PhGetData_FUNC", PhGetData_FUNC);
    ("PhGetMsgSize_FUNC", PhGetMsgSize_FUNC);
    ("PhGetRects_FUNC", PhGetRects_FUNC);
    ("PhGetTile_FUNC", PhGetTile_FUNC);
    ("PhInitDrag_FUNC", PhInitDrag_FUNC);
    ("PhInputGroup_FUNC", PhInputGroup_FUNC);
    ("PhIntersectTilings_FUNC", PhIntersectTilings_FUNC);
    ("PhKeyToMb_FUNC", PhKeyToMb_FUNC);
    ("PhMakeGhostBitmap_FUNC", PhMakeGhostBitmap_FUNC);
    ("PhMakeTransBitmap_FUNC", PhMakeTransBitmap_FUNC);
    ("PhMergeTiles_FUNC", PhMergeTiles_FUNC);
    ("PhMoveCursorAbs_FUNC", PhMoveCursorAbs_FUNC);
    ("PhQueryCursor_FUNC", PhQueryCursor_FUNC);
    ("PhQueryRids_FUNC", PhQueryRids_FUNC);
    ("PhRectIntersect_FUNC", PhRectIntersect_FUNC);
    ("PhRectUnion__II_FUNC", PhRectUnion__II_FUNC);
    ("PhRectUnion__Lorg_eclipse_swt_internal_photon_PhRect_1t_2Lorg_eclipse_swt_internal_photon_PhRect_1t_2_FUNC", PhRectUnion__Lorg_eclipse_swt_internal_photon_PhRect_1t_2Lorg_eclipse_swt_internal_photon_PhRect_1t_2_FUNC);
    ("PhRectsToTiles_FUNC", PhRectsToTiles_FUNC);
    ("PhRegionQuery_FUNC", PhRegionQuery_FUNC);
    ("PhReleaseImage_FUNC", PhReleaseImage_FUNC);
    ("PhSortTiles_FUNC", PhSortTiles_FUNC);
    ("PhTilesToRects_FUNC", PhTilesToRects_FUNC);
    ("PhTranslateTiles_FUNC", PhTranslateTiles_FUNC);
    ("PhWindowQueryVisible_FUNC", PhWindowQueryVisible_FUNC);
    ("PiCropImage_FUNC", PiCropImage_FUNC);
    ("PiDuplicateImage_FUNC", PiDuplicateImage_FUNC);
    ("PmMemCreateMC_FUNC", PmMemCreateMC_FUNC);
    ("PmMemFlush_FUNC", PmMemFlush_FUNC);
    ("PmMemReleaseMC_FUNC", PmMemReleaseMC_FUNC);
    ("PmMemStart_FUNC", PmMemStart_FUNC);
    ("PmMemStop_FUNC", PmMemStop_FUNC);
    ("PtAddCallback_FUNC", PtAddCallback_FUNC);
    ("PtAddEventHandler_FUNC", PtAddEventHandler_FUNC);
    ("PtAddFilterCallback_FUNC", PtAddFilterCallback_FUNC);
    ("PtAddHotkeyHandler_FUNC", PtAddHotkeyHandler_FUNC);
    ("PtAlert_FUNC", PtAlert_FUNC);
    ("PtAppAddInput_FUNC", PtAppAddInput_FUNC);
    ("PtAppAddWorkProc_FUNC", PtAppAddWorkProc_FUNC);
    ("PtAppCreatePulse_FUNC", PtAppCreatePulse_FUNC);
    ("PtAppDeletePulse_FUNC", PtAppDeletePulse_FUNC);
    ("PtAppProcessEvent_FUNC", PtAppProcessEvent_FUNC);
    ("PtAppPulseTrigger_FUNC", PtAppPulseTrigger_FUNC);
    ("PtAppRemoveInput_FUNC", PtAppRemoveInput_FUNC);
    ("PtAppRemoveWorkProc_FUNC", PtAppRemoveWorkProc_FUNC);
    ("PtBeep_FUNC", PtBeep_FUNC);
    ("PtBlit_FUNC", PtBlit_FUNC);
    ("PtBlockAllWindows_FUNC", PtBlockAllWindows_FUNC);
    ("PtBlockWindow_FUNC", PtBlockWindow_FUNC);
    ("PtButton_FUNC", PtButton_FUNC);
    ("PtCalcBorder_FUNC", PtCalcBorder_FUNC);
    ("PtCalcCanvas_FUNC", PtCalcCanvas_FUNC);
    ("PtClippedBlit_FUNC", PtClippedBlit_FUNC);
    ("PtColorSelect_FUNC", PtColorSelect_FUNC);
    ("PtComboBox_FUNC", PtComboBox_FUNC);
    ("PtContainer_FUNC", PtContainer_FUNC);
    ("PtContainerFindFocus_FUNC", PtContainerFindFocus_FUNC);
    ("PtContainerFocusNext_FUNC", PtContainerFocusNext_FUNC);
    ("PtContainerFocusPrev_FUNC", PtContainerFocusPrev_FUNC);
    ("PtContainerGiveFocus_FUNC", PtContainerGiveFocus_FUNC);
    ("PtContainerHold_FUNC", PtContainerHold_FUNC);
    ("PtContainerRelease_FUNC", PtContainerRelease_FUNC);
    ("PtCreateAppContext_FUNC", PtCreateAppContext_FUNC);
    ("PtCreateWidget_FUNC", PtCreateWidget_FUNC);
    ("PtCreateWidgetClass_FUNC", PtCreateWidgetClass_FUNC);
    ("PtDamageExtent_FUNC", PtDamageExtent_FUNC);
    ("PtDamageWidget_FUNC", PtDamageWidget_FUNC);
    ("PtDestroyWidget_FUNC", PtDestroyWidget_FUNC);
    ("PtDisjoint_FUNC", PtDisjoint_FUNC);
    ("PtEnter_FUNC", PtEnter_FUNC);
    ("PtEventHandler_FUNC", PtEventHandler_FUNC);
    ("PtExtentWidget_FUNC", PtExtentWidget_FUNC);
    ("PtExtentWidgetFamily_FUNC", PtExtentWidgetFamily_FUNC);
    ("PtFileSelection_FUNC", PtFileSelection_FUNC);
    ("PtFindDisjoint_FUNC", PtFindDisjoint_FUNC);
    ("PtFlush_FUNC", PtFlush_FUNC);
    ("PtFontSelection_FUNC", PtFontSelection_FUNC);
    ("PtForwardWindowEvent_FUNC", PtForwardWindowEvent_FUNC);
    ("PtFrameSize_FUNC", PtFrameSize_FUNC);
    ("PtGetAbsPosition_FUNC", PtGetAbsPosition_FUNC);
    ("PtGetResources_FUNC", PtGetResources_FUNC);
    ("PtGlobalFocusNext_FUNC", PtGlobalFocusNext_FUNC);
    ("PtGlobalFocusNextContainer_FUNC", PtGlobalFocusNextContainer_FUNC);
    ("PtGlobalFocusPrev_FUNC", PtGlobalFocusPrev_FUNC);
    ("PtGlobalFocusPrevContainer_FUNC", PtGlobalFocusPrevContainer_FUNC);
    ("PtGroup_FUNC", PtGroup_FUNC);
    ("PtHit_FUNC", PtHit_FUNC);
    ("PtHold_FUNC", PtHold_FUNC);
    ("PtInflateBalloon_FUNC", PtInflateBalloon_FUNC);
    ("PtInit_FUNC", PtInit_FUNC);
    ("PtIsFocused_FUNC", PtIsFocused_FUNC);
    ("PtLabel_FUNC", PtLabel_FUNC);
    ("PtLeave_FUNC", PtLeave_FUNC);
    ("PtList_FUNC", PtList_FUNC);
    ("PtListAddItems_FUNC", PtListAddItems_FUNC);
    ("PtListDeleteAllItems_FUNC", PtListDeleteAllItems_FUNC);
    ("PtListDeleteItemPos_FUNC", PtListDeleteItemPos_FUNC);
    ("PtListGotoPos_FUNC", PtListGotoPos_FUNC);
    ("PtListItemPos_FUNC", PtListItemPos_FUNC);
    ("PtListReplaceItemPos_FUNC", PtListReplaceItemPos_FUNC);
    ("PtListSelectPos_FUNC", PtListSelectPos_FUNC);
    ("PtListUnselectPos_FUNC", PtListUnselectPos_FUNC);
    ("PtMainLoop_FUNC", PtMainLoop_FUNC);
    ("PtMenu_FUNC", PtMenu_FUNC);
    ("PtMenuBar_FUNC", PtMenuBar_FUNC);
    ("PtMenuButton_FUNC", PtMenuButton_FUNC);
    ("PtMultiText_FUNC", PtMultiText_FUNC);
    ("PtNextTopLevelWidget_FUNC", PtNextTopLevelWidget_FUNC);
    ("PtPane_FUNC", PtPane_FUNC);
    ("PtPanelGroup_FUNC", PtPanelGroup_FUNC);
    ("PtPositionMenu_FUNC", PtPositionMenu_FUNC);
    ("PtProgress_FUNC", PtProgress_FUNC);
    ("PtReParentWidget_FUNC", PtReParentWidget_FUNC);
    ("PtRealizeWidget_FUNC", PtRealizeWidget_FUNC);
    ("PtRegion_FUNC", PtRegion_FUNC);
    ("PtRelease_FUNC", PtRelease_FUNC);
    ("PtRemoveCallback_FUNC", PtRemoveCallback_FUNC);
    ("PtRemoveHotkeyHandler_FUNC", PtRemoveHotkeyHandler_FUNC);
    ("PtScrollArea_FUNC", PtScrollArea_FUNC);
    ("PtScrollContainer_FUNC", PtScrollContainer_FUNC);
    ("PtScrollbar_FUNC", PtScrollbar_FUNC);
    ("PtSendEventToWidget_FUNC", PtSendEventToWidget_FUNC);
    ("PtSeparator_FUNC", PtSeparator_FUNC);
    ("PtSetAreaFromWidgetCanvas_FUNC", PtSetAreaFromWidgetCanvas_FUNC);
    ("PtSetParentWidget_FUNC", PtSetParentWidget_FUNC);
    ("PtSetResource_FUNC", PtSetResource_FUNC);
    ("PtSetResources_FUNC", PtSetResources_FUNC);
    ("PtSlider_FUNC", PtSlider_FUNC);
    ("PtSuperClassDraw_FUNC", PtSuperClassDraw_FUNC);
    ("PtSyncWidget_FUNC", PtSyncWidget_FUNC);
    ("PtText_FUNC", PtText_FUNC);
    ("PtTextGetSelection_FUNC", PtTextGetSelection_FUNC);
    ("PtTextModifyText__IIIIII_FUNC", PtTextModifyText__IIIIII_FUNC);
    ("PtTextModifyText__IIII_3BI_FUNC", PtTextModifyText__IIII_3BI_FUNC);
    ("PtTextSetSelection_FUNC", PtTextSetSelection_FUNC);
    ("PtTimer_FUNC", PtTimer_FUNC);
    ("PtToggleButton_FUNC", PtToggleButton_FUNC);
    ("PtToolbar_FUNC", PtToolbar_FUNC);
    ("PtUnblockWindows_FUNC", PtUnblockWindows_FUNC);
    ("PtUnrealizeWidget_FUNC", PtUnrealizeWidget_FUNC);
    ("PtValidParent_FUNC", PtValidParent_FUNC);
    ("PtWebClient_FUNC", PtWebClient_FUNC);
    ("PtWidgetArea_FUNC", PtWidgetArea_FUNC);
    ("PtWidgetBrotherBehind_FUNC", PtWidgetBrotherBehind_FUNC);
    ("PtWidgetBrotherInFront_FUNC", PtWidgetBrotherInFront_FUNC);
    ("PtWidgetCanvas__II_FUNC", PtWidgetCanvas__II_FUNC);
    ("PtWidgetCanvas__ILorg_eclipse_swt_internal_photon_PhRect_1t_2_FUNC", PtWidgetCanvas__ILorg_eclipse_swt_internal_photon_PhRect_1t_2_FUNC);
    ("PtWidgetChildBack_FUNC", PtWidgetChildBack_FUNC);
    ("PtWidgetChildFront_FUNC", PtWidgetChildFront_FUNC);
    ("PtWidgetClass_FUNC", PtWidgetClass_FUNC);
    ("PtWidgetExtent__II_FUNC", PtWidgetExtent__II_FUNC);
    ("PtWidgetExtent__ILorg_eclipse_swt_internal_photon_PhRect_1t_2_FUNC", PtWidgetExtent__ILorg_eclipse_swt_internal_photon_PhRect_1t_2_FUNC);
    ("PtWidgetFlags_FUNC", PtWidgetFlags_FUNC);
    ("PtWidgetInsert_FUNC", PtWidgetInsert_FUNC);
    ("PtWidgetIsClassMember_FUNC", PtWidgetIsClassMember_FUNC);
    ("PtWidgetIsRealized_FUNC", PtWidgetIsRealized_FUNC);
    ("PtWidgetOffset_FUNC", PtWidgetOffset_FUNC);
    ("PtWidgetParent_FUNC", PtWidgetParent_FUNC);
    ("PtWidgetPreferredSize_FUNC", PtWidgetPreferredSize_FUNC);
    ("PtWidgetRid_FUNC", PtWidgetRid_FUNC);
    ("PtWidgetToBack_FUNC", PtWidgetToBack_FUNC);
    ("PtWidgetToFront_FUNC", PtWidgetToFront_FUNC);
    ("PtWindow_FUNC", PtWindow_FUNC);
    ("PtWindowFocus_FUNC", PtWindowFocus_FUNC);
    ("PtWindowGetState_FUNC", PtWindowGetState_FUNC);
    ("PtWindowToBack_FUNC", PtWindowToBack_FUNC);
    ("PtWindowToFront_FUNC", PtWindowToFront_FUNC);
    ("free_FUNC", free_FUNC);
    ("getenv_FUNC", getenv_FUNC);
    ("malloc_FUNC", malloc_FUNC);
    ("memmove__III_FUNC", memmove__III_FUNC);
    ("memmove__ILorg_eclipse_swt_internal_photon_PgAlpha_1t_2I_FUNC", memmove__ILorg_eclipse_swt_internal_photon_PgAlpha_1t_2I_FUNC);
    ("memmove__ILorg_eclipse_swt_internal_photon_PhArea_1t_2I_FUNC", memmove__ILorg_eclipse_swt_internal_photon_PhArea_1t_2I_FUNC);
    ("memmove__ILorg_eclipse_swt_internal_photon_PhCursorDef_1t_2I_FUNC", memmove__ILorg_eclipse_swt_internal_photon_PhCursorDef_1t_2I_FUNC);
    ("memmove__ILorg_eclipse_swt_internal_photon_PhEvent_1t_2I_FUNC", memmove__ILorg_eclipse_swt_internal_photon_PhEvent_1t_2I_FUNC);
    ("memmove__ILorg_eclipse_swt_internal_photon_PhImage_1t_2I_FUNC", memmove__ILorg_eclipse_swt_internal_photon_PhImage_1t_2I_FUNC);
    ("memmove__ILorg_eclipse_swt_internal_photon_PhPoint_1t_2I_FUNC", memmove__ILorg_eclipse_swt_internal_photon_PhPoint_1t_2I_FUNC);
    ("memmove__ILorg_eclipse_swt_internal_photon_PhPointerEvent_1t_2I_FUNC", memmove__ILorg_eclipse_swt_internal_photon_PhPointerEvent_1t_2I_FUNC);
    ("memmove__ILorg_eclipse_swt_internal_photon_PhRect_1t_2I_FUNC", memmove__ILorg_eclipse_swt_internal_photon_PhRect_1t_2I_FUNC);
    ("memmove__ILorg_eclipse_swt_internal_photon_PhTile_1t_2I_FUNC", memmove__ILorg_eclipse_swt_internal_photon_PhTile_1t_2I_FUNC);
    ("memmove__ILorg_eclipse_swt_internal_photon_PtTextCallback_1t_2I_FUNC", memmove__ILorg_eclipse_swt_internal_photon_PtTextCallback_1t_2I_FUNC);
    ("memmove__ILorg_eclipse_swt_internal_photon_PtWebClientData_1t_2I_FUNC", memmove__ILorg_eclipse_swt_internal_photon_PtWebClientData_1t_2I_FUNC);
    ("memmove__I_3BI_FUNC", memmove__I_3BI_FUNC);
    ("memmove__I_3II_FUNC", memmove__I_3II_FUNC);
    ("memmove__Lorg_eclipse_swt_internal_photon_FontDetails_2II_FUNC", memmove__Lorg_eclipse_swt_internal_photon_FontDetails_2II_FUNC);
    ("memmove__Lorg_eclipse_swt_internal_photon_PgAlpha_1t_2II_FUNC", memmove__Lorg_eclipse_swt_internal_photon_PgAlpha_1t_2II_FUNC);
    ("memmove__Lorg_eclipse_swt_internal_photon_PgMap_1t_2II_FUNC", memmove__Lorg_eclipse_swt_internal_photon_PgMap_1t_2II_FUNC);
    ("memmove__Lorg_eclipse_swt_internal_photon_PhClipHeader_2II_FUNC", memmove__Lorg_eclipse_swt_internal_photon_PhClipHeader_2II_FUNC);
    ("memmove__Lorg_eclipse_swt_internal_photon_PhEvent_1t_2II_FUNC", memmove__Lorg_eclipse_swt_internal_photon_PhEvent_1t_2II_FUNC);
    ("memmove__Lorg_eclipse_swt_internal_photon_PhImage_1t_2II_FUNC", memmove__Lorg_eclipse_swt_internal_photon_PhImage_1t_2II_FUNC);
    ("memmove__Lorg_eclipse_swt_internal_photon_PhKeyEvent_1t_2II_FUNC", memmove__Lorg_eclipse_swt_internal_photon_PhKeyEvent_1t_2II_FUNC);
    ("memmove__Lorg_eclipse_swt_internal_photon_PhPointerEvent_1t_2II_FUNC", memmove__Lorg_eclipse_swt_internal_photon_PhPointerEvent_1t_2II_FUNC);
    ("memmove__Lorg_eclipse_swt_internal_photon_PhRect_1t_2II_FUNC", memmove__Lorg_eclipse_swt_internal_photon_PhRect_1t_2II_FUNC);
    ("memmove__Lorg_eclipse_swt_internal_photon_PhTile_1t_2II_FUNC", memmove__Lorg_eclipse_swt_internal_photon_PhTile_1t_2II_FUNC);
    ("memmove__Lorg_eclipse_swt_internal_photon_PhWindowEvent_1t_2II_FUNC", memmove__Lorg_eclipse_swt_internal_photon_PhWindowEvent_1t_2II_FUNC);
    ("memmove__Lorg_eclipse_swt_internal_photon_PtCallbackInfo_1t_2II_FUNC", memmove__Lorg_eclipse_swt_internal_photon_PtCallbackInfo_1t_2II_FUNC);
    ("memmove__Lorg_eclipse_swt_internal_photon_PtScrollbarCallback_1t_2II_FUNC", memmove__Lorg_eclipse_swt_internal_photon_PtScrollbarCallback_1t_2II_FUNC);
    ("memmove__Lorg_eclipse_swt_internal_photon_PtTextCallback_1t_2II_FUNC", memmove__Lorg_eclipse_swt_internal_photon_PtTextCallback_1t_2II_FUNC);
    ("memmove__Lorg_eclipse_swt_internal_photon_PtWebDataReqCallback_1t_2II_FUNC", memmove__Lorg_eclipse_swt_internal_photon_PtWebDataReqCallback_1t_2II_FUNC);
    ("memmove__Lorg_eclipse_swt_internal_photon_PtWebMetaDataCallback_1t_2II_FUNC", memmove__Lorg_eclipse_swt_internal_photon_PtWebMetaDataCallback_1t_2II_FUNC);
    ("memmove__Lorg_eclipse_swt_internal_photon_PtWebStatusCallback_1t_2II_FUNC", memmove__Lorg_eclipse_swt_internal_photon_PtWebStatusCallback_1t_2II_FUNC);
    ("memmove__Lorg_eclipse_swt_internal_photon_PtWebWindowCallback_1t_2II_FUNC", memmove__Lorg_eclipse_swt_internal_photon_PtWebWindowCallback_1t_2II_FUNC);
    ("memmove___3BII_FUNC", memmove___3BII_FUNC);
    ("memmove___3BLorg_eclipse_swt_internal_photon_PhClipHeader_2I_FUNC", memmove___3BLorg_eclipse_swt_internal_photon_PhClipHeader_2I_FUNC);
    ("memmove___3III_FUNC", memmove___3III_FUNC);
    ("memmove___3SII_FUNC", memmove___3SII_FUNC);
    ("memset_FUNC", memset_FUNC);
    ("strdup_FUNC", strdup_FUNC);
    ("strlen_FUNC", strlen_FUNC);
    ("uname_FUNC", uname_FUNC)
  ].

(** What every macro name ends in. *)
Definition FUNC_suffix : string := "_FUNC".

(** The entry point behind a constant: the macro's name without its
    [_FUNC] suffix, the JNI-mangled name of the native (with its signature
    suffix where the native is overloaded). *)
Definition entry_point_name (macro : string) : string :=
  substring 0 (String.length macro - String.length FUNC_suffix) macro.

(** The constants' values and entry points, in the order of the header. *)
Definition FUNC_values : list Z := snd <$> FUNC_defines.
Definition FUNC_names : list string := (entry_point_name ∘ fst) <$> FUNC_defines.

(** ** Byte-wise lexicographic order on names *)

Fixpoint bytes_compare (a b : string) : comparison :=
  match a, b with
  | EmptyString, EmptyString => Eq
  | EmptyString, String _ _ => Lt
  | String _ _, EmptyString => Gt
  | String x a', String y b' =>
      match (N_of_ascii x ?= N_of_ascii y)%N with
      | Eq => bytes_compare a' b'
      | Lt => Lt
      | Gt => Gt
      end
  end.

Definition bytes_ltb (a b : string) : bool :=
  match bytes_compare a b with Lt => true | _ => false end.

Definition bytes_lt (a b : string) : Prop := bytes_compare a b = Lt.

(** [a] is not above [b]. *)
Definition bytes_le (a b : string) : Prop := bytes_ltb b a = false.

(** Each element is strictly below its successor. *)
Fixpoint strictly_increasing (l : list string) : bool :=
  match l with
  | a :: (b :: _) as tl => bytes_ltb a b && strictly_increasing tl
  | _ => true
  end.

(** ** Program state and statements *)

(** [int OS_nativeFunctionCallCount[];] and [char* OS_nativeFunctionNames[];] *)
Record state : Type := mkState {
  OS_nativeFunctionCallCount : list Z;
  OS_nativeFunctionNames : list string
}.

(** A statement run from a state: the state it leaves, or [None] when its
    behaviour is undefined. *)
Definition stmt : Type := state -> option state.

(** The empty statement (a macro that expands to nothing). *)
Definition skip : stmt := fun s => Some s.

(** [OS_nativeFunctionCallCount[func]++;]: the element [func] is read and
    its successor stored back; an index outside the array is undefined. *)
Definition count_post_incr (func : Z) : stmt := fun s =>
  if decide (0 <= func) then
    match OS_nativeFunctionCallCount s !! Z.to_nat func with
    | Some c =>
        Some (mkState
                (<[Z.to_nat func := CInt.incr c]> (OS_nativeFunctionCallCount s))
                (OS_nativeFunctionNames s))
    | None => None
    end
  else None.

(** [#define OS_NATIVE_ENTER(env, that, func) ...], one body per branch of
    the [#ifdef]. *)
Definition OS_NATIVE_ENTER (cfg : config) {Env That : Type}
    (env : Env) (that : That) (func : Z) : stmt :=
  match cfg with
  | NATIVE_STATS_defined => count_post_incr func
  | NATIVE_STATS_undefined => skip
  end.

(** [#define OS_NATIVE_EXIT(env, that, func)], empty in both branches. *)
Definition OS_NATIVE_EXIT (cfg : config) {Env That : Type}
    (env : Env) (that : That) (func : Z) : stmt :=
  match cfg with
  | NATIVE_STATS_defined => skip
  | NATIVE_STATS_undefined => skip
  end.

(** [a; b]: the statement [a], then [b] from the state that [a] leaves. *)
Definition seq_stmt (a b : stmt) : stmt := fun s => a s ≫= b.

(** [k] consecutive runs of one statement. *)
Fixpoint repeat_stmt (k : nat) (st : stmt) : stmt :=
  match k with
  | O => skip
  | S k' => seq_stmt st (repeat_stmt k' st)
  end.

(** The counter of identifier [func], if the table has one. *)
Definition count_at (s : state) (func : Z) : option Z :=
  if decide (0 <= func) then OS_nativeFunctionCallCount s !! Z.to_nat func
  else None.

(** ** The parts defined outside the header *)

(** Modelled from the spec: the table length [N] (the definitions of the two
    arrays, with their sizes, are in a file that is not part of the sources;
    the spec gives "[N] in this artifact is 285"). *)
Definition OS_nativeFunctionCount : Z := 285.

(** Modelled from the spec: the Function Name Table, "an ordered sequence of
    [N] strings, indexed by Function Identifier, giving the ... name of each
    entry point" (its initialiser is not part of the sources). *)
Definition name_table : list string := FUNC_names.

(** Modelled from the spec: the state at process start, every counter zero
    ("initialized to zero at process start"), for a given name table. *)
Definition start_state (names : list string) : state :=
  mkState (replicate (length names) 0) names.

(** The start state of the program with the 285 entry points. *)
Definition initial_state : state := start_state name_table.

(** A state whose first counter has reached [INT_MAX]. *)
Definition state_at_INT_MAX : state :=
  mkState (<[0%nat := CInt.INT_MAX]> (OS_nativeFunctionCallCount initial_state))
          (OS_nativeFunctionNames initial_state).

(** Both tables have the length [N]. *)
Definition tables_have_length_N (s : state) : Prop :=
  Z.of_nat (length (OS_nativeFunctionCallCount s)) = OS_nativeFunctionCount /\
  Z.of_nat (length (OS_nativeFunctionNames s)) = OS_nativeFunctionCount.

(** A state of the instrumented program: tables of length [N] that hold
    [int] counters. *)
Definition valid_state (s : state) : Prop :=
  tables_have_length_N s /\
  Forall CInt.in_range (OS_nativeFunctionCallCount s).

(** Modelled from the spec: the reporting routine, which "produces, for each
    identifier ..., the pair of its name and current count" (the routine is
    not part of the sources). *)
Definition report (s : state) : list (string * Z) :=
  zip (OS_nativeFunctionNames s) (OS_nativeFunctionCallCount s).

(** The report's entry for identifier [func]. *)
Definition report_at (s : state) (func : Z) : option (string * Z) :=
  if decide (0 <= func) then report s !! Z.to_nat func else None.

(** Modelled from the spec: the identifier assignment of the generator
    (not part of the sources), "sorting the full set of native entry-point
    names lexicographically (byte-wise ordering ...) and numbering them
    [0, 1, 2, ...] in that order". *)
Fixpoint insert_sorted (x : string) (l : list string) : list string :=
  match l with
  | [] => [x]
  | y :: l' => if bytes_ltb y x then y :: insert_sorted x l' else x :: l
  end.

(** Modelled from the spec: the generator's sort of the set of names, here
    by insertion. *)
Definition sort_names (l : list string) : list string :=
  foldr insert_sorted [] l.

(** Modelled from the spec: the generator's numbering of the sorted names,
    "[0, 1, 2, ...] in that order". *)
Definition assign_identifiers (names : list string) : list (string * Z) :=
  let sorted := sort_names names in
  zip sorted (Z.of_nat <$> seq 0 (length sorted)).

(** Modelled from the spec: the identifier an assignment gives to a name
    (the lookup the generator's output stands for). *)
Fixpoint identifier_of (ids : list (string * Z)) (name : string) : option Z :=
  match ids with
  | [] => None
  | (n, v) :: ids' => if String.eqb n name then Some v else identifier_of ids' name
  end.

(** Modelled from the spec: a trampoline of the binding layer (not part of
    the sources), which "immediately before invoking its underlying native
    entry point, calls [enter(its own identifier)], and immediately after,
    calls [exit(its own identifier)]". *)
Definition trampoline (cfg : config) {Env That : Type}
    (env : Env) (that : That) (func : Z) (native : stmt) : stmt :=
  seq_stmt (OS_NATIVE_ENTER cfg env that func)
    (seq_stmt native (OS_NATIVE_EXIT cfg env that func)).

(** States a program can be in: the start state, and what the two macros
    make of a state for any arguments. *)
Inductive reachable (cfg : config) : state -> Prop :=
  | reachable_start : reachable cfg initial_state
  | reachable_enter {Env That : Type} (env : Env) (that : That) func s s' :
      reachable cfg s ->
      OS_NATIVE_ENTER cfg env that func s = Some s' ->
      reachable cfg s'
  | reachable_exit {Env That : Type} (env : Env) (that : That) func s s' :
      reachable cfg s ->
      OS_NATIVE_EXIT cfg env that func s = Some s' ->
      reachable cfg s'.


(** ** Sequences of macro expansions *)

(** What a run of the binding layer does to the tables: one expansion of
    either macro per native call, with the identifier it is given. *)
Inductive event : Type :=
  | Enter (func : Z)
  | Exit (func : Z).

Definition event_func (e : event) : Z :=
  match e with Enter f => f | Exit f => f end.

Definition run_event (cfg : config) (e : event) : stmt :=
  match e with
  | Enter f => OS_NATIVE_ENTER cfg tt tt f
  | Exit f => OS_NATIVE_EXIT cfg tt tt f
  end.

(** The expansions of a trace, one after the other. *)
Fixpoint run_trace (cfg : config) (t : list event) : stmt :=
  match t with
  | [] => skip
  | e :: t' => seq_stmt (run_event cfg e) (run_trace cfg t')
  end.

(** How often a trace enters the identifier [f], and how often it enters
    at all. *)
Fixpoint enters_of (f : Z) (t : list event) : Z :=
  match t with
  | [] => 0
  | Enter g :: t' => (if decide (g = f) then 1 else 0) + enters_of f t'
  | Exit _ :: t' => enters_of f t'
  end.

Fixpoint enters (t : list event) : Z :=
  match t with
  | [] => 0
  | Enter _ :: t' => 1 + enters t'
  | Exit _ :: t' => enters t'
  end.

(** Every event of the trace has an identifier inside a table of [n]
    entries. *)
Definition trace_in_bounds (n : Z) (t : list event) : Prop :=
  Forall (fun e => 0 <= event_func e < n) t.

(** The sum of all counters. *)
Definition total_count (s : state) : Z :=
  foldr Z.add 0 (OS_nativeFunctionCallCount s).
(** * Properties *)

(** ** Arithmetic of [int] *)

Lemma wrap_in_range z : CInt.in_range (CInt.wrap z).
Proof.
  unfold CInt.in_range, CInt.wrap, CInt.modulus, CInt.width, CInt.INT_MIN, CInt.INT_MAX.
  pose proof (Z.mod_pos_bound (z - -2147483648) (2 ^ 32) ltac:(lia)). lia.
Qed.

Lemma wrap_small z : CInt.in_range z -> CInt.wrap z = z.
Proof.
  unfold CInt.in_range, CInt.wrap, CInt.modulus, CInt.width, CInt.INT_MIN, CInt.INT_MAX.
  intros H. rewrite Z.mod_small; lia.
Qed.

Lemma wrap_add_wrap a b : CInt.wrap (CInt.wrap a + b) = CInt.wrap (a + b).
Proof.
  unfold CInt.wrap. f_equal.
  replace ((a - CInt.INT_MIN) mod CInt.modulus + CInt.INT_MIN + b - CInt.INT_MIN)
    with ((a - CInt.INT_MIN) mod CInt.modulus + b) by lia.
  replace (a + b - CInt.INT_MIN) with ((a - CInt.INT_MIN) + b) by lia.
  apply Zplus_mod_idemp_l.
Qed.

Lemma incr_below_max x :
  CInt.INT_MIN <= x < CInt.INT_MAX -> CInt.incr x = x + 1.
Proof.
  intros H. apply wrap_small. unfold CInt.in_range, CInt.INT_MIN, CInt.INT_MAX in *. lia.
Qed.

Lemma incr_at_max : CInt.incr CInt.INT_MAX = CInt.INT_MIN.
Proof. reflexivity. Qed.

(** ** One [OS_NATIVE_ENTER] in the enabled configuration *)

Section Enter.
Context {Env That : Type} (env : Env) (that : That).

Local Abbreviation enter := (OS_NATIVE_ENTER NATIVE_STATS_defined env that).

Lemma count_at_Some s func c :
  count_at s func = Some c <->
  0 <= func < Z.of_nat (length (OS_nativeFunctionCallCount s)) /\
  OS_nativeFunctionCallCount s !! Z.to_nat func = Some c.
Proof.
  unfold count_at. case_decide; split.
  - intros H1. split; [|done]. apply lookup_lt_Some in H1. lia.
  - tauto.
  - done.
  - lia.
Qed.

Lemma count_at_in_bounds s func :
  0 <= func < Z.of_nat (length (OS_nativeFunctionCallCount s)) ->
  exists c, count_at s func = Some c.
Proof.
  intros H. destruct (lookup_lt_is_Some_2 (OS_nativeFunctionCallCount s) (Z.to_nat func))
    as [c Hc]; [lia|].
  exists c. apply count_at_Some. done.
Qed.

Lemma enter_defined s func c :
  count_at s func = Some c ->
  enter func s =
    Some (mkState (<[Z.to_nat func := CInt.incr c]> (OS_nativeFunctionCallCount s))
                  (OS_nativeFunctionNames s)).
Proof.
  intros [Hb Hc]%count_at_Some. simpl. unfold count_post_incr.
  rewrite decide_True by lia. by rewrite Hc.
Qed.

Lemma enter_undefined s func :
  count_at s func = None -> enter func s = None.
Proof.
  unfold count_at. simpl. unfold count_post_incr.
  case_decide; [|done]. by intros ->.
Qed.

Lemma enter_inv s func s' :
  enter func s = Some s' ->
  exists c, count_at s func = Some c /\
    s' = mkState (<[Z.to_nat func := CInt.incr c]> (OS_nativeFunctionCallCount s))
                 (OS_nativeFunctionNames s).
Proof.
  intros H. destruct (count_at s func) as [c|] eqn:Hc.
  - exists c. split; [done|]. rewrite (enter_defined _ _ _ Hc) in H. congruence.
  - rewrite (enter_undefined _ _ Hc) in H. done.
Qed.

Lemma enter_count_same s func c s' :
  count_at s func = Some c -> enter func s = Some s' ->
  count_at s' func = Some (CInt.incr c).
Proof.
  intros Hc H. rewrite (enter_defined _ _ _ Hc) in H. injection H as <-.
  apply count_at_Some in Hc as [Hb Hc]. apply count_at_Some. simpl.
  rewrite length_insert. split; [done|].
  apply list_lookup_insert_eq. lia.
Qed.

Lemma enter_count_other s func s' j :
  enter func s = Some s' -> j <> func -> count_at s' j = count_at s j.
Proof.
  intros (c & Hc & ->)%enter_inv Hne. unfold count_at. simpl.
  apply count_at_Some in Hc as [Hb Hc].
  case_decide; [|done]. apply list_lookup_insert_ne. lia.
Qed.

Lemma enter_names s func s' :
  enter func s = Some s' -> OS_nativeFunctionNames s' = OS_nativeFunctionNames s.
Proof. by intros (c & Hc & ->)%enter_inv. Qed.

Lemma enter_length s func s' :
  enter func s = Some s' ->
  length (OS_nativeFunctionCallCount s') = length (OS_nativeFunctionCallCount s).
Proof. intros (c & Hc & ->)%enter_inv. simpl. apply length_insert. Qed.

(** [k] consecutive enters of one identifier. *)
Lemma repeat_enter k : forall s func c,
  count_at s func = Some c -> CInt.in_range c ->
  exists s', repeat_stmt k (enter func) s = Some s' /\
    count_at s' func = Some (CInt.wrap (c + Z.of_nat k)) /\
    (forall j, j <> func -> count_at s' j = count_at s j) /\
    OS_nativeFunctionNames s' = OS_nativeFunctionNames s /\
    length (OS_nativeFunctionCallCount s') = length (OS_nativeFunctionCallCount s).
Proof.
  induction k as [|k IH]; intros s func c Hc Hr.
  - exists s. repeat split; try done.
    rewrite Hc, Z.add_0_r. f_equal. symmetry. by apply wrap_small.
  - pose proof (enter_defined _ _ _ Hc) as He.
    pose proof (enter_count_same _ _ _ _ Hc He) as Hc1.
    destruct (IH _ _ _ Hc1 (wrap_in_range _)) as (s' & Hrun & Hcnt & Hoth & Hnm & Hlen).
    exists s'. split; [|split; [|split; [|split]]].
    + cbn [repeat_stmt]. unfold seq_stmt. rewrite He. exact Hrun.
    + rewrite Hcnt. f_equal. unfold CInt.incr.
      rewrite wrap_add_wrap. f_equal. lia.
    + intros j Hj. rewrite (Hoth j Hj). by apply (enter_count_other _ _ _ _ He).
    + rewrite Hnm. by apply (enter_names _ _ _ He).
    + rewrite Hlen. by apply (enter_length _ _ _ He).
Qed.

End Enter.

(** ** The byte-wise order is a strict total order *)

Lemma N_of_ascii_inj x y : N_of_ascii x = N_of_ascii y -> x = y.
Proof.
  intros H. rewrite <- (ascii_N_embedding x), <- (ascii_N_embedding y). by f_equal.
Qed.

Lemma bytes_compare_eq a : forall b, bytes_compare a b = Eq -> a = b.
Proof.
  induction a as [|x a IH]; intros [|y b]; simpl; try done.
  destruct (N.compare_spec (N_of_ascii x) (N_of_ascii y)) as [He| |]; try done.
  intros H. f_equal; [by apply N_of_ascii_inj|by apply IH].
Qed.

Lemma bytes_compare_refl a : bytes_compare a a = Eq.
Proof. induction a as [|x a IH]; simpl; [done|]. by rewrite N.compare_refl. Qed.

Lemma bytes_compare_antisym a : forall b,
  bytes_compare b a = CompOpp (bytes_compare a b).
Proof.
  induction a as [|x a IH]; intros [|y b]; simpl; try done.
  rewrite (N.compare_antisym (N_of_ascii x) (N_of_ascii y)).
  destruct (N_of_ascii x ?= N_of_ascii y)%N; simpl; [apply IH|done|done].
Qed.

Lemma bytes_lt_irrefl a : ~ bytes_lt a a.
Proof. unfold bytes_lt. by rewrite bytes_compare_refl. Qed.

Lemma bytes_lt_asym a b : bytes_lt a b -> ~ bytes_lt b a.
Proof.
  unfold bytes_lt. intros H. rewrite bytes_compare_antisym, H. done.
Qed.

Lemma bytes_lt_trans a : forall b c,
  bytes_lt a b -> bytes_lt b c -> bytes_lt a c.
Proof.
  unfold bytes_lt.
  induction a as [|x a IH]; intros [|y b] [|z c]; simpl; try done.
  destruct (N.compare_spec (N_of_ascii x) (N_of_ascii y)) as [Hxy|Hxy|Hxy];
    destruct (N.compare_spec (N_of_ascii y) (N_of_ascii z)) as [Hyz|Hyz|Hyz];
    try done; intros H1 H2.
  - rewrite Hxy, Hyz, N.compare_refl. by apply (IH b).
  - rewrite Hxy. by apply N.compare_lt_iff in Hyz as ->.
  - rewrite <- Hyz. by apply N.compare_lt_iff in Hxy as ->.
  - assert (Hxz : (N_of_ascii x < N_of_ascii z)%N) by lia.
    by apply N.compare_lt_iff in Hxz as ->.
Qed.

Lemma bytes_ltb_lt a b : bytes_ltb a b = true <-> bytes_lt a b.
Proof. unfold bytes_ltb, bytes_lt. by destruct (bytes_compare a b). Qed.

Lemma bytes_lt_total a b : bytes_lt a b \/ a = b \/ bytes_lt b a.
Proof.
  unfold bytes_lt. rewrite (bytes_compare_antisym a b).
  destruct (bytes_compare a b) eqn:E; simpl; auto using bytes_compare_eq.
Qed.

(** A list whose neighbours increase is sorted throughout. *)
Lemma strictly_increasing_sorted l :
  strictly_increasing l = true -> StronglySorted bytes_lt l.
Proof.
  induction l as [|a [|b l] IH]; intros H.
  - constructor.
  - repeat constructor.
  - cbn [strictly_increasing] in H. apply andb_prop in H as [Hab Htl].
    apply bytes_ltb_lt in Hab. specialize (IH Htl).
    constructor; [done|].
    apply StronglySorted_inv in IH as [_ Hb].
    constructor; [done|].
    eapply List.Forall_impl; [|exact Hb]. intros c Hc. by apply (bytes_lt_trans a b c).
Qed.


Lemma StronglySorted_lookup_lt {A} (R : A -> A -> Prop) (l : list A) :
  StronglySorted R l ->
  forall i j a b, l !! i = Some a -> l !! j = Some b -> (i < j)%nat -> R a b.
Proof.
  induction 1 as [|x l Hs IH Hx]; intros i j a b Hi Hj Hij; [done|].
  destruct j as [|j]; [lia|]. simpl in Hj. destruct i as [|i]; simpl in Hi.
  - injection Hi as <-.
    apply (proj1 (Forall_lookup _ _) Hx j b Hj).
  - apply (IH i j a b Hi Hj). lia.
Qed.

(** ** The report *)

Lemma report_at_Some s func name c :
  report_at s func = Some (name, c) <->
  0 <= func /\ OS_nativeFunctionNames s !! Z.to_nat func = Some name /\
  count_at s func = Some c.
Proof.
  unfold report_at, count_at, report. case_decide as Hf.
  - rewrite lookup_zip_with_Some. split.
    + intros (x & y & [= -> ->] & Hx & Hy). done.
    + intros (_ & Hx & Hy). by exists name, c.
  - split; [done|]. intros [? _]. lia.
Qed.

Lemma report_at_unchanged s s' j :
  OS_nativeFunctionNames s' = OS_nativeFunctionNames s ->
  count_at s' j = count_at s j ->
  report_at s' j = report_at s j.
Proof.
  unfold report_at, count_at, report. intros Hn Hc.
  case_decide; [|done]. rewrite !lookup_zip_with, Hn, Hc. done.
Qed.

(** ** States of the program *)

Lemma initial_state_counts :
  OS_nativeFunctionCallCount initial_state = replicate 285 0.
Proof. vm_compute. reflexivity. Qed.

Lemma initial_state_valid : valid_state initial_state.
Proof.
  split; [split; vm_compute; reflexivity|].
  rewrite initial_state_counts. apply Forall_replicate.
  unfold CInt.in_range, CInt.INT_MIN, CInt.INT_MAX. lia.
Qed.


Lemma valid_state_name_at s func :
  valid_state s -> 0 <= func < OS_nativeFunctionCount ->
  exists name, OS_nativeFunctionNames s !! Z.to_nat func = Some name.
Proof.
  intros [[_ Hlen] _] Hb. apply lookup_lt_is_Some_2. lia.
Qed.

Lemma enter_valid {Env That : Type} (env : Env) (that : That) cfg func s s' :
  valid_state s -> OS_NATIVE_ENTER cfg env that func s = Some s' -> valid_state s'.
Proof.
  destruct cfg; simpl.
  - intros [[Hl1 Hl2] Hr] (c & Hc & ->)%(enter_inv env that).
    split; [split|]; simpl.
    + by rewrite length_insert.
    + done.
    + apply Forall_insert; [done|apply wrap_in_range].
  - unfold skip. by intros ? [= <-].
Qed.

Lemma exit_identity {Env That : Type} (env : Env) (that : That) cfg func s :
  OS_NATIVE_EXIT cfg env that func s = Some s.
Proof. by destruct cfg. Qed.

Lemma reachable_valid cfg s : reachable cfg s -> valid_state s.
Proof.
  induction 1 as [|Env That env that func s s' _ IH He
                  |Env That env that func s s' _ IH He].
  - apply initial_state_valid.
  - by apply (enter_valid env that cfg func s).
  - rewrite exit_identity in He. by injection He as <-.
Qed.

Lemma reachable_repeat_enter {Env That : Type} (env : Env) (that : That)
    cfg func k : forall s s',
  reachable cfg s ->
  repeat_stmt k (OS_NATIVE_ENTER cfg env that func) s = Some s' ->
  reachable cfg s'.
Proof.
  induction k as [|k IH]; intros s s' Hs; cbn [repeat_stmt].
  - unfold skip. by intros [= <-].
  - unfold seq_stmt. destruct (OS_NATIVE_ENTER cfg env that func s) as [s1|] eqn:He; [|done].
    simpl. apply IH. by apply (reachable_enter cfg env that func s).
Qed.


(** ** Facts about the table of constants, by evaluation *)

Lemma FUNC_values_range : FUNC_values = Z.of_nat <$> seq 0 285.
Proof. vm_compute. reflexivity. Qed.


Lemma FUNC_defines_position p macro v :
  FUNC_defines !! p = Some (macro, v) -> v = Z.of_nat p.
Proof.
  intros Hp.
  assert (Hv : FUNC_values !! p = Some v).
  { unfold FUNC_values. by rewrite list_lookup_fmap, Hp. }
  rewrite FUNC_values_range, list_lookup_fmap in Hv.
  destruct (seq 0 285 !! p) as [n|] eqn:Hn; [|done].
  apply lookup_seq in Hn as [-> _]. simpl in Hv. by injection Hv as <-.
Qed.

Lemma FUNC_defines_lookup macro v :
  (macro, v) ∈ FUNC_defines ->
  0 <= v /\ FUNC_defines !! Z.to_nat v = Some (macro, v).
Proof.
  intros Hin. apply list_elem_of_lookup in Hin as [p Hp].
  pose proof (FUNC_defines_position p macro v Hp) as ->.
  rewrite Nat2Z.id. split; [lia|done].
Qed.

Lemma FUNC_names_increasing : strictly_increasing FUNC_names = true.
Proof. vm_compute. reflexivity. Qed.

Lemma FUNC_names_sorted : StronglySorted bytes_lt FUNC_names.
Proof. exact (strictly_increasing_sorted _ FUNC_names_increasing). Qed.

Lemma FUNC_names_lookup macro v :
  (macro, v) ∈ FUNC_defines ->
  FUNC_names !! Z.to_nat v = Some (entry_point_name macro).
Proof.
  intros [_ Hl]%FUNC_defines_lookup. unfold FUNC_names.
  by rewrite list_lookup_fmap, Hl.
Qed.

Lemma FUNC_macro_suffix macro v :
  (macro, v) ∈ FUNC_defines -> macro = entry_point_name macro ++ FUNC_suffix.
Proof.
  assert (Hall : Forall (fun c => fst c = entry_point_name (fst c) ++ FUNC_suffix)
                        FUNC_defines).
  { apply (bool_decide_unpack _). vm_compute. exact I. }
  intros Hin. apply (proj1 (Forall_forall _ _) Hall _ Hin).
Qed.

(** ** The assignment of identifiers by sorting *)

Lemma bytes_le_not_lt a b : bytes_le a b <-> ~ bytes_lt b a.
Proof.
  unfold bytes_le. rewrite <- bytes_ltb_lt. by destruct (bytes_ltb b a).
Qed.

Lemma bytes_lt_le a b : bytes_lt a b -> bytes_le a b.
Proof. intros H. apply bytes_le_not_lt. by apply bytes_lt_asym. Qed.

Lemma bytes_le_trans a b c : bytes_le a b -> bytes_le b c -> bytes_le a c.
Proof.
  rewrite !bytes_le_not_lt. intros Hab Hbc Hca.
  destruct (bytes_lt_total a b) as [H|[->|H]]; [|done|done].
  apply Hbc. by apply (bytes_lt_trans c a b).
Qed.

Lemma bytes_le_antisym a b : bytes_le a b -> bytes_le b a -> a = b.
Proof.
  rewrite !bytes_le_not_lt. intros Hab Hba.
  by destruct (bytes_lt_total a b) as [H|[->|H]].
Qed.

Lemma insert_sorted_perm x l : Permutation (insert_sorted x l) (x :: l).
Proof.
  induction l as [|y l IH]; simpl; [done|].
  destruct (bytes_ltb y x); [|done].
  rewrite IH. apply perm_swap.
Qed.

Lemma insert_sorted_sorted x l :
  StronglySorted bytes_le l -> StronglySorted bytes_le (insert_sorted x l).
Proof.
  induction 1 as [|y l Hs IH Hy]; simpl.
  - repeat constructor.
  - destruct (bytes_ltb y x) eqn:Hyx.
    + constructor; [done|].
      rewrite (insert_sorted_perm x l). constructor; [|done].
      by apply bytes_lt_le, bytes_ltb_lt.
    + constructor; [by constructor|].
      constructor; [done|].
      eapply List.Forall_impl; [|exact Hy]. intros c. by apply bytes_le_trans.
Qed.

Lemma sort_names_perm l : Permutation (sort_names l) l.
Proof.
  induction l as [|x l IH]; simpl; [done|].
  by rewrite insert_sorted_perm, IH.
Qed.

Lemma sort_names_sorted l : StronglySorted bytes_le (sort_names l).
Proof.
  induction l as [|x l IH]; simpl; [constructor|]. by apply insert_sorted_sorted.
Qed.

(** A set of names has one sorted listing. *)
Lemma sorted_listing_unique l1 : forall l2,
  StronglySorted bytes_le l1 -> StronglySorted bytes_le l2 ->
  Permutation l1 l2 -> l1 = l2.
Proof.
  induction l1 as [|a l1 IH]; intros l2 H1 H2 Hp.
  - by apply Permutation_nil in Hp.
  - destruct l2 as [|b l2]; [by apply Permutation_sym, Permutation_nil in Hp|].
    apply StronglySorted_inv in H1 as [H1 Ha].
    apply StronglySorted_inv in H2 as [H2 Hb].
    assert (a = b) as <-.
    { assert (Hain : a ∈ b :: l2) by (rewrite <- Hp; left).
      assert (Hbin : b ∈ a :: l1) by (rewrite Hp; left).
      apply elem_of_cons in Hain as [->|Hain]; [done|].
      apply elem_of_cons in Hbin as [->|Hbin]; [done|].
      apply bytes_le_antisym.
      - by apply (proj1 (Forall_forall _ _) Ha).
      - by apply (proj1 (Forall_forall _ _) Hb). }
    f_equal. apply IH; [done|done|]. by apply Permutation_cons_inv in Hp.
Qed.

Lemma FUNC_names_sorted_le : StronglySorted bytes_le FUNC_names.
Proof.
  pose proof FUNC_names_sorted as H.
  induction H as [|a l Hs IH Ha]; constructor; [done|].
  eapply List.Forall_impl; [|exact Ha]. intros c. apply bytes_lt_le.
Qed.


(** ** Counting *)

(** C1 (amended): for every identifier [i] with [0 <= i < 285] and every
    number [k] of at most [INT_MAX = 2^31 - 1], [k] consecutive expansions of
    [OS_NATIVE_ENTER] with [func = i] in the enabled configuration, run from
    the all-zero start state, are defined and leave the counter of [i] equal
    to [k]; the report shows the entry of [i] as its name with the count [k]. *)
Theorem enter_k_times_counts_k {Env That : Type} (env : Env) (that : That)
    (i : Z) (k : nat) :
  0 <= i < OS_nativeFunctionCount ->
  Z.of_nat k <= CInt.INT_MAX ->
  exists s' name,
    repeat_stmt k (OS_NATIVE_ENTER NATIVE_STATS_defined env that i) initial_state
      = Some s' /\
    count_at s' i = Some (Z.of_nat k) /\
    name_table !! Z.to_nat i = Some name /\
    report_at s' i = Some (name, Z.of_nat k).
Proof.
  intros Hi Hk.
  assert (Hc0 : count_at initial_state i = Some 0).
  { apply count_at_Some. rewrite initial_state_counts, length_replicate.
    unfold OS_nativeFunctionCount in Hi. split; [lia|].
    apply lookup_replicate_2. lia. }
  assert (Hr0 : CInt.in_range 0) by (unfold CInt.in_range, CInt.INT_MIN, CInt.INT_MAX; lia).
  destruct (repeat_enter env that k _ _ _ Hc0 Hr0) as (s' & Hrun & Hcnt & _ & Hnm & _).
  destruct (valid_state_name_at _ _ initial_state_valid Hi) as [name Hname].
  rewrite wrap_small in Hcnt
    by (unfold CInt.in_range, CInt.INT_MIN, CInt.INT_MAX in *; lia).
  exists s', name. repeat split; try done.
  apply report_at_Some. rewrite Hnm. repeat split; [lia|done|done].
Qed.

Lemma enter_k_times_counts_k_witness :
  exists s' name,
    repeat_stmt 3 (OS_NATIVE_ENTER NATIVE_STATS_defined tt tt PtInit_FUNC) initial_state
      = Some s' /\
    count_at s' PtInit_FUNC = Some 3 /\
    name_table !! Z.to_nat PtInit_FUNC = Some name /\
    report_at s' PtInit_FUNC = Some (name, 3).
Proof.
  apply (enter_k_times_counts_k tt tt PtInit_FUNC 3).
  - unfold PtInit_FUNC, OS_nativeFunctionCount. lia.
  - unfold CInt.INT_MAX. lia.
Defined.

(** [2^31] enters of identifier [0] from the start state: the counter has
    gone through [INT_MAX] and stands at [INT_MIN]. *)
Lemma enter_2p31_times :
  exists s',
    repeat_stmt (Z.to_nat 2147483648)
      (OS_NATIVE_ENTER NATIVE_STATS_defined tt tt PfDecomposeStemToID_FUNC)
      initial_state = Some s' /\
    count_at s' PfDecomposeStemToID_FUNC = Some (-2147483648) /\
    OS_nativeFunctionNames s' = OS_nativeFunctionNames initial_state.
Proof.
  assert (Hc0 : count_at initial_state PfDecomposeStemToID_FUNC = Some 0)
    by (vm_compute; reflexivity).
  assert (Hr0 : CInt.in_range 0) by (unfold CInt.in_range, CInt.INT_MIN, CInt.INT_MAX; lia).
  destruct (repeat_enter tt tt (Z.to_nat 2147483648) _ _ _ Hc0 Hr0)
    as (s' & Hrun & Hcnt & _ & Hnm & _).
  rewrite Z2Nat.id in Hcnt by lia.
  change (CInt.wrap (0 + 2147483648)) with (-2147483648) in Hcnt.
  exists s'. split; [exact Hrun|]. split; [exact Hcnt|exact Hnm].
Qed.

(** C1 as stated fails at [k = 2^31]: after [2^31] enters of identifier [0]
    from the start state the counter is [-2^31], not [2^31]. *)
Lemma enter_2p31_times_counts_negative :
  exists s',
    repeat_stmt (Z.to_nat 2147483648)
      (OS_NATIVE_ENTER NATIVE_STATS_defined tt tt PfDecomposeStemToID_FUNC)
      initial_state = Some s' /\
    count_at s' PfDecomposeStemToID_FUNC = Some (-2147483648) /\
    count_at s' PfDecomposeStemToID_FUNC <> Some (Z.of_nat (Z.to_nat 2147483648)) /\
    report_at s' PfDecomposeStemToID_FUNC = Some ("PfDecomposeStemToID", -2147483648).
Proof.
  destruct enter_2p31_times as (s' & Hrun & Hcnt & Hnm).
  exists s'. split; [exact Hrun|]. split; [exact Hcnt|]. split.
  - rewrite Hcnt, Z2Nat.id by lia. intros [= ?].
  - apply report_at_Some. rewrite Hnm. split; [done|]. split; [|exact Hcnt].
    vm_compute. reflexivity.
Qed.

(** ** Safety of the array access *)




(** ** Frame *)

(** C6: for distinct identifiers [i] and [j] in [[0, 285)] and every state
    whose tables have the length [N], [OS_NATIVE_ENTER] with [func = i] is
    defined and leaves the counter of [j], and the entry of [j] in the
    report, as they were; in both configurations. *)
Theorem enter_other_counter_unchanged {Env That : Type} (env : Env) (that : That)
    (cfg : config) (i j : Z) (s : state) :
  tables_have_length_N s ->
  0 <= i < OS_nativeFunctionCount ->
  0 <= j < OS_nativeFunctionCount ->
  i <> j ->
  exists s',
    OS_NATIVE_ENTER cfg env that i s = Some s' /\
    count_at s' j = count_at s j /\
    report_at s' j = report_at s j.
Proof.
  intros [Hlen _] Hi Hj Hne. destruct cfg.
  - destruct (count_at_in_bounds s i) as [c Hc]; [lia|].
    pose proof (enter_defined env that _ _ _ Hc) as He.
    assert (Hcj : count_at
      (mkState (<[Z.to_nat i := CInt.incr c]> (OS_nativeFunctionCallCount s))
               (OS_nativeFunctionNames s)) j = count_at s j)
      by (apply (enter_count_other env that _ _ _ _ He); congruence).
    eexists. split; [exact He|]. split; [exact Hcj|].
    by apply report_at_unchanged.
  - exists s. done.
Qed.

Lemma enter_other_counter_unchanged_witness :
  exists s',
    OS_NATIVE_ENTER NATIVE_STATS_defined tt tt PtInit_FUNC initial_state = Some s' /\
    count_at s' PtMainLoop_FUNC = count_at initial_state PtMainLoop_FUNC /\
    report_at s' PtMainLoop_FUNC = report_at initial_state PtMainLoop_FUNC.
Proof.
  apply (enter_other_counter_unchanged tt tt NATIVE_STATS_defined
           PtInit_FUNC PtMainLoop_FUNC initial_state).
  - apply (proj1 initial_state_valid).
  - unfold PtInit_FUNC, OS_nativeFunctionCount. lia.
  - unfold PtMainLoop_FUNC, OS_nativeFunctionCount. lia.
  - unfold PtInit_FUNC, PtMainLoop_FUNC. lia.
Defined.

(** ** The empty expansions *)

(** C7: [OS_NATIVE_EXIT] leaves every state as it is, for every identifier,
    whether [NATIVE_STATS] is defined or not. *)
Theorem exit_is_noop {Env That : Type} (env : Env) (that : That)
    (cfg : config) (func : Z) (s : state) :
  OS_NATIVE_EXIT cfg env that func s = Some s.
Proof. destruct cfg; reflexivity. Qed.

(** C8: with [NATIVE_STATS] not defined, [OS_NATIVE_ENTER] and
    [OS_NATIVE_EXIT] leave every state as it is, for every identifier (in
    or out of the range of the tables). *)
Theorem disabled_enter_exit_noop {Env That : Type} (env : Env) (that : That)
    (func : Z) (s : state) :
  OS_NATIVE_ENTER NATIVE_STATS_undefined env that func s = Some s /\
  OS_NATIVE_EXIT NATIVE_STATS_undefined env that func s = Some s.
Proof. split; reflexivity. Qed.

(** ** The counters as machine integers *)

(** C5 (amended): the Call Count Table is a sequence of [N = 285] counters
    of the signed 32-bit type [int], all zero in the start state. In every
    reachable state both tables have the length [N] and every counter lies
    in [[-2^31, 2^31)]. An enter at a counter [c] with [0 <= c < INT_MAX]
    leaves [c + 1], which is non-negative; an enter at a counter equal to
    [INT_MAX] signals no error and leaves [INT_MIN = -2^31], the value
    congruent to [INT_MAX + 1] modulo [2^32]. *)
Theorem counters_are_wrapping_int :
  OS_nativeFunctionCallCount initial_state
    = replicate (Z.to_nat OS_nativeFunctionCount) 0 /\
  (forall cfg s, reachable cfg s -> valid_state s) /\
  (forall (Env That : Type) (env : Env) (that : That) func s c,
     count_at s func = Some c -> 0 <= c < CInt.INT_MAX ->
     exists s', OS_NATIVE_ENTER NATIVE_STATS_defined env that func s = Some s' /\
                count_at s' func = Some (c + 1) /\ 0 <= c + 1) /\
  (forall (Env That : Type) (env : Env) (that : That) func s,
     count_at s func = Some CInt.INT_MAX ->
     exists s', OS_NATIVE_ENTER NATIVE_STATS_defined env that func s = Some s' /\
                count_at s' func = Some CInt.INT_MIN /\
                (CInt.INT_MIN - (CInt.INT_MAX + 1)) mod CInt.modulus = 0).
Proof.
  split; [exact initial_state_counts|]. split; [exact reachable_valid|]. split.
  - intros Env That env that func s c Hc Hr.
    pose proof (enter_defined env that _ _ _ Hc) as He.
    eexists. split; [exact He|]. split; [|lia].
    rewrite (enter_count_same env that _ _ _ _ Hc He), incr_below_max; [done|].
    unfold CInt.INT_MIN. lia.
  - intros Env That env that func s Hc.
    pose proof (enter_defined env that _ _ _ Hc) as He.
    eexists. split; [exact He|]. split; [|reflexivity].
    by rewrite (enter_count_same env that _ _ _ _ Hc He), incr_at_max.
Qed.

Lemma counters_are_wrapping_int_witness :
  (exists s', OS_NATIVE_ENTER NATIVE_STATS_defined tt tt PfDecomposeStemToID_FUNC
                initial_state = Some s' /\
              count_at s' PfDecomposeStemToID_FUNC = Some (0 + 1) /\ 0 <= 0 + 1) /\
  (exists s', OS_NATIVE_ENTER NATIVE_STATS_defined tt tt PfDecomposeStemToID_FUNC
                state_at_INT_MAX = Some s' /\
              count_at s' PfDecomposeStemToID_FUNC = Some CInt.INT_MIN /\
              (CInt.INT_MIN - (CInt.INT_MAX + 1)) mod CInt.modulus = 0).
Proof.
  split.
  - apply (proj1 (proj2 (proj2 counters_are_wrapping_int)) unit unit tt tt
             PfDecomposeStemToID_FUNC initial_state 0).
    + vm_compute. reflexivity.
    + unfold CInt.INT_MAX. lia.
  - apply (proj2 (proj2 (proj2 counters_are_wrapping_int)) unit unit tt tt
             PfDecomposeStemToID_FUNC state_at_INT_MAX).
    vm_compute. reflexivity.
Defined.

(** C5 as stated fails: the counters are not unsigned. The state after
    [2^31] enters of identifier [0] is reachable and holds a negative
    counter. *)
Lemma reachable_negative_counter :
  exists s,
    reachable NATIVE_STATS_defined s /\
    count_at s PfDecomposeStemToID_FUNC = Some (-2147483648) /\
    -2147483648 < 0.
Proof.
  destruct enter_2p31_times as (s' & Hrun & Hcnt & _).
  exists s'. split; [|split; [exact Hcnt|lia]].
  apply (reachable_repeat_enter tt tt NATIVE_STATS_defined _ _ _ _
           (reachable_start _) Hrun).
Qed.

(** ** Independence of [env] and [that] *)

(** C10: in the enabled configuration the counter table left by
    [OS_NATIVE_ENTER] is a function of [func] and of the counter table
    before: two expansions with the same [func], from states with the same
    counter table, with any [env] and [that], leave the same counter table
    (or are both undefined). Neither macro, in either configuration, changes
    the name table. *)
Theorem enter_ignores_env_and_that
    {Env1 That1 Env2 That2 : Type}
    (env1 : Env1) (that1 : That1) (env2 : Env2) (that2 : That2)
    (func : Z) (s1 s2 : state) :
  OS_nativeFunctionCallCount s1 = OS_nativeFunctionCallCount s2 ->
  (OS_nativeFunctionCallCount <$>
     OS_NATIVE_ENTER NATIVE_STATS_defined env1 that1 func s1)
  = (OS_nativeFunctionCallCount <$>
     OS_NATIVE_ENTER NATIVE_STATS_defined env2 that2 func s2) /\
  (forall cfg s',
     OS_NATIVE_ENTER cfg env1 that1 func s1 = Some s' ->
     OS_nativeFunctionNames s' = OS_nativeFunctionNames s1) /\
  (forall cfg s',
     OS_NATIVE_EXIT cfg env1 that1 func s1 = Some s' ->
     OS_nativeFunctionNames s' = OS_nativeFunctionNames s1).
Proof.
  intros Heq. split; [|split].
  - simpl. unfold count_post_incr. rewrite Heq.
    case_decide; [|done]. by destruct (_ !! _).
  - intros [] s' He.
    + by apply (enter_names env1 that1 _ func).
    + by injection He as <-.
  - intros cfg s' He. rewrite exit_identity in He. by injection He as <-.
Qed.

Lemma enter_ignores_env_and_that_witness :
  (OS_nativeFunctionCallCount <$>
     OS_NATIVE_ENTER NATIVE_STATS_defined tt 7%nat PtInit_FUNC initial_state)
  = (OS_nativeFunctionCallCount <$>
     OS_NATIVE_ENTER NATIVE_STATS_defined "env" true PtInit_FUNC
       (mkState (OS_nativeFunctionCallCount initial_state) [])) /\
  (forall cfg s',
     OS_NATIVE_ENTER cfg tt 7%nat PtInit_FUNC initial_state = Some s' ->
     OS_nativeFunctionNames s' = OS_nativeFunctionNames initial_state) /\
  (forall cfg s',
     OS_NATIVE_EXIT cfg tt 7%nat PtInit_FUNC initial_state = Some s' ->
     OS_nativeFunctionNames s' = OS_nativeFunctionNames initial_state).
Proof.
  apply (enter_ignores_env_and_that tt 7%nat "env" true PtInit_FUNC initial_state
           (mkState (OS_nativeFunctionCallCount initial_state) [])).
  reflexivity.
Defined.

(** ** The identifier constants *)

(** C3: the header defines 285 constants; their values, in the order of the
    header, are [0, 1, ..., 284]: each value is the constant's position, the
    values are exactly the integers of [[0, 285)], and no value and no macro
    name occurs twice. *)
Theorem FUNC_values_contiguous :
  length FUNC_defines = 285%nat /\
  FUNC_values = Z.of_nat <$> seq 0 285 /\
  (forall p macro v, FUNC_defines !! p = Some (macro, v) -> v = Z.of_nat p) /\
  (forall v, v ∈ FUNC_values <-> 0 <= v < OS_nativeFunctionCount) /\
  NoDup FUNC_values /\
  NoDup (fst <$> FUNC_defines).
Proof.
  split; [vm_compute; reflexivity|]. split; [exact FUNC_values_range|].
  split; [|split; [|split]].
  - exact FUNC_defines_position.
  - intros v. rewrite FUNC_values_range, list_elem_of_fmap. split.
    + intros (n & -> & Hn). apply list_elem_of_In, in_seq in Hn.
      unfold OS_nativeFunctionCount. lia.
    + intros Hv. exists (Z.to_nat v). split; [lia|].
      apply list_elem_of_In, in_seq. unfold OS_nativeFunctionCount in Hv. lia.
  - rewrite FUNC_values_range. apply NoDup_fmap_2; [|apply NoDup_seq].
    intros a b. lia.
  - apply (bool_decide_unpack _). vm_compute. exact I.
Qed.


(** C4: every macro name is an entry-point name followed by [_FUNC]; the
    entry-point names (signature suffixes included), listed in the order of
    their identifiers, increase strictly in the byte-wise lexicographic
    order; and of any two constants of the header the one with the smaller
    name is the one with the smaller identifier. *)
Theorem FUNC_names_sorted_bytewise :
  (forall macro v,
     (macro, v) ∈ FUNC_defines -> macro = entry_point_name macro ++ FUNC_suffix) /\
  strictly_increasing FUNC_names = true /\
  StronglySorted bytes_lt FUNC_names /\
  (forall m1 v1 m2 v2,
     (m1, v1) ∈ FUNC_defines -> (m2, v2) ∈ FUNC_defines ->
     (bytes_lt (entry_point_name m1) (entry_point_name m2) <-> v1 < v2)).
Proof.
  split; [exact FUNC_macro_suffix|].
  split; [exact FUNC_names_increasing|].
  split; [exact FUNC_names_sorted|].
  intros m1 v1 m2 v2 H1 H2.
  pose proof (FUNC_names_lookup _ _ H1) as Hn1.
  pose proof (FUNC_names_lookup _ _ H2) as Hn2.
  pose proof (FUNC_defines_lookup _ _ H1) as [Hv1 Hl1].
  pose proof (FUNC_defines_lookup _ _ H2) as [Hv2 Hl2].
  pose proof (StronglySorted_lookup_lt _ _ FUNC_names_sorted) as Hsorted.
  split.
  - intros Hlt. destruct (Z.lt_total v1 v2) as [Hv|[Hv|Hv]]; [done| |].
    + subst v2. rewrite Hl1 in Hl2. injection Hl2 as <-.
      by apply bytes_lt_irrefl in Hlt.
    + exfalso. apply (bytes_lt_asym _ _ Hlt).
      apply (Hsorted _ _ _ _ Hn2 Hn1). lia.
  - intros Hv. apply (Hsorted _ _ _ _ Hn1 Hn2). lia.
Qed.

Lemma FUNC_names_sorted_bytewise_witness :
  bytes_lt (entry_point_name "PgGetVideoMode_FUNC")
           (entry_point_name "PgGetVideoModeInfo_FUNC")
  <-> PgGetVideoMode_FUNC < PgGetVideoModeInfo_FUNC.
Proof.
  apply (proj2 (proj2 (proj2 FUNC_names_sorted_bytewise))).
  - apply (list_elem_of_lookup_2 _ 33). reflexivity.
  - apply (list_elem_of_lookup_2 _ 34). reflexivity.
Defined.

(** The macro names themselves, with the [_FUNC] suffix, are not in
    byte-wise order: the suffix starts with an underscore, which sorts after
    the capitals. *)
Lemma FUNC_macro_names_not_sorted :
  strictly_increasing (fst <$> FUNC_defines) = false /\
  bytes_lt "PgGetVideoModeInfo_FUNC" "PgGetVideoMode_FUNC".
Proof. split; vm_compute; reflexivity. Qed.

(** ** The example of the spec *)

(** C9: for the entry points [Alpha], [Beta], [Gamma] the assignment gives
    the identifiers 0, 1, 2 in this order; from the all-zero table, two
    enters on the identifier of [Beta] (alone, or inside two runs of its
    trampoline around a native that leaves the tables alone) and none on the
    others give the report [("Alpha",0); ("Beta",2); ("Gamma",0)]. *)
Theorem alpha_beta_gamma_report {Env That : Type} (env : Env) (that : That) :
  let ids := assign_identifiers ["Alpha"; "Beta"; "Gamma"] in
  let start := start_state (fst <$> ids) in
  ids = [("Alpha", 0); ("Beta", 1); ("Gamma", 2)] /\
  assign_identifiers ["Gamma"; "Alpha"; "Beta"] = ids /\
  identifier_of ids "Beta" = Some 1 /\
  report start = [("Alpha", 0); ("Beta", 0); ("Gamma", 0)] /\
  report <$> repeat_stmt 2 (OS_NATIVE_ENTER NATIVE_STATS_defined env that 1) start
    = Some [("Alpha", 0); ("Beta", 2); ("Gamma", 0)] /\
  report <$> repeat_stmt 2 (trampoline NATIVE_STATS_defined env that 1 skip) start
    = Some [("Alpha", 0); ("Beta", 2); ("Gamma", 0)].
Proof. repeat split; vm_compute; reflexivity. Qed.

(** ** The header against the assignment algorithm *)

(** The header is what the assignment algorithm makes of its set of names,
    in whatever order they are listed: the [p]-th name in byte-wise order
    gets the identifier [p]. *)
Theorem assign_identifiers_reproduces_header (names : list string) :
  Permutation names FUNC_names ->
  assign_identifiers names
    = (fun c => (entry_point_name (fst c), snd c)) <$> FUNC_defines.
Proof.
  intros Hp. unfold assign_identifiers.
  assert (Hs : sort_names names = FUNC_names).
  { apply sorted_listing_unique.
    - apply sort_names_sorted.
    - apply FUNC_names_sorted_le.
    - by rewrite sort_names_perm. }
  rewrite Hs. vm_compute. reflexivity.
Qed.

Lemma assign_identifiers_reproduces_header_witness :
  assign_identifiers (rev FUNC_names)
    = (fun c => (entry_point_name (fst c), snd c)) <$> FUNC_defines.
Proof.
  apply (assign_identifiers_reproduces_header (rev FUNC_names)).
  apply Permutation_sym, Permutation_rev.
Defined.

(** ** The names in the report *)



(** ** Order of the calls *)

Lemma enter_enter_commute func1 func2 s :
  seq_stmt (count_post_incr func1) (count_post_incr func2) s
  = seq_stmt (count_post_incr func2) (count_post_incr func1) s.
Proof.
  destruct (decide (func1 = func2)) as [->|Hne]; [done|].
  unfold seq_stmt.
  destruct (count_at s func1) as [c1|] eqn:H1;
    destruct (count_at s func2) as [c2|] eqn:H2.
  - pose proof (enter_defined tt tt _ _ _ H1) as E1.
    pose proof (enter_defined tt tt _ _ _ H2) as E2.
    simpl in E1, E2. rewrite E1, E2. simpl.
    assert (H21 : count_at (mkState (<[Z.to_nat func1 := CInt.incr c1]>
              (OS_nativeFunctionCallCount s)) (OS_nativeFunctionNames s)) func2 = Some c2)
      by (rewrite (enter_count_other tt tt _ _ _ _ E1); done).
    assert (H12 : count_at (mkState (<[Z.to_nat func2 := CInt.incr c2]>
              (OS_nativeFunctionCallCount s)) (OS_nativeFunctionNames s)) func1 = Some c1)
      by (rewrite (enter_count_other tt tt _ _ _ _ E2); done).
    pose proof (enter_defined tt tt _ _ _ H21) as E21.
    pose proof (enter_defined tt tt _ _ _ H12) as E12.
    simpl in E21, E12. rewrite E21, E12. f_equal. f_equal.
    apply count_at_Some in H1 as [? _]. apply count_at_Some in H2 as [? _].
    apply list_insert_insert_ne. lia.
  - pose proof (enter_defined tt tt _ _ _ H1) as E1.
    pose proof (enter_undefined tt tt _ _ H2) as E2.
    simpl in E1, E2. rewrite E1, E2. simpl.
    apply (enter_undefined tt tt).
    rewrite (enter_count_other tt tt _ _ _ _ E1); done.
  - pose proof (enter_undefined tt tt _ _ H1) as E1.
    pose proof (enter_defined tt tt _ _ _ H2) as E2.
    simpl in E1, E2. rewrite E1, E2. simpl. symmetry.
    apply (enter_undefined tt tt).
    rewrite (enter_count_other tt tt _ _ _ _ E2); done.
  - pose proof (enter_undefined tt tt _ _ H1) as E1.
    pose proof (enter_undefined tt tt _ _ H2) as E2.
    simpl in E1, E2. by rewrite E1, E2.
Qed.

Lemma run_event_commute cfg e1 e2 s :
  seq_stmt (run_event cfg e1) (run_event cfg e2) s
  = seq_stmt (run_event cfg e2) (run_event cfg e1) s.
Proof.
  destruct cfg; [|by destruct e1, e2].
  destruct e1 as [f1|f1], e2 as [f2|f2]; simpl.
  - apply enter_enter_commute.
  - unfold seq_stmt, skip. simpl. by destruct (count_post_incr f1 s).
  - unfold seq_stmt, skip. simpl. by destruct (count_post_incr f2 s).
  - done.
Qed.

(** The tables after a run depend on which expansions took place, not on
    their order: two traces with the same events, in any order, lead from
    every state to the same state (or are both undefined), in both
    configurations. *)
Theorem run_trace_order_irrelevant (cfg : config) (t1 t2 : list event) :
  Permutation t1 t2 ->
  forall s, run_trace cfg t1 s = run_trace cfg t2 s.
Proof.
  induction 1 as [|e t1 t2 _ IH|e1 e2 t|t1 t2 t3 _ IH1 _ IH2]; intros s.
  - done.
  - cbn [run_trace]. unfold seq_stmt. destruct (run_event cfg e s); simpl; [apply IH|done].
  - cbn [run_trace].
    pose proof (run_event_commute cfg e1 e2 s) as Hc. unfold seq_stmt in *.
    destruct (run_event cfg e1 s) as [s1|] eqn:E1;
      destruct (run_event cfg e2 s) as [s2|] eqn:E2; simpl in *.
    + destruct (run_event cfg e2 s1) as [s12|] eqn:E12;
        destruct (run_event cfg e1 s2) as [s21|] eqn:E21; simpl; congruence.
    + destruct (run_event cfg e2 s1); simpl; [done|done].
    + destruct (run_event cfg e1 s2); simpl; [done|done].
    + done.
  - by rewrite IH1, IH2.
Qed.

Lemma run_trace_order_irrelevant_witness :
  run_trace NATIVE_STATS_defined
    [Enter PtInit_FUNC; Exit PtInit_FUNC; Enter PtMainLoop_FUNC] initial_state
  = run_trace NATIVE_STATS_defined
    [Enter PtMainLoop_FUNC; Enter PtInit_FUNC; Exit PtInit_FUNC] initial_state.
Proof.
  apply (run_trace_order_irrelevant NATIVE_STATS_defined
           [Enter PtInit_FUNC; Exit PtInit_FUNC; Enter PtMainLoop_FUNC]
           [Enter PtMainLoop_FUNC; Enter PtInit_FUNC; Exit PtInit_FUNC]).
  apply Permutation_sym.
  apply (Permutation_cons_append [Enter PtInit_FUNC; Exit PtInit_FUNC]
           (Enter PtMainLoop_FUNC)).
Defined.

(** ** Counting over arbitrary runs *)

Lemma enters_of_nonneg f t : 0 <= enters_of f t.
Proof.
  induction t as [|[g|g] t IH]; simpl; [lia| |done].
  case_decide; lia.
Qed.

Lemma enters_nonneg t : 0 <= enters t.
Proof. induction t as [|[g|g] t IH]; simpl; lia. Qed.

Lemma enters_of_le_enters f t : enters_of f t <= enters t.
Proof.
  induction t as [|[g|g] t IH]; simpl; [lia| |done].
  case_decide; lia.
Qed.

(** A run of in-bounds events from any table of [int] counters: every
    counter has moved by the number of its enters, in [int] arithmetic. *)
Lemma run_trace_counts t : forall s,
  trace_in_bounds (Z.of_nat (length (OS_nativeFunctionCallCount s))) t ->
  Forall CInt.in_range (OS_nativeFunctionCallCount s) ->
  exists s',
    run_trace NATIVE_STATS_defined t s = Some s' /\
    OS_nativeFunctionNames s' = OS_nativeFunctionNames s /\
    length (OS_nativeFunctionCallCount s') = length (OS_nativeFunctionCallCount s) /\
    Forall CInt.in_range (OS_nativeFunctionCallCount s') /\
    forall i c, count_at s i = Some c ->
      count_at s' i = Some (CInt.wrap (c + enters_of i t)).
Proof.
  induction t as [|e t IH]; intros s Hb Hr.
  - exists s. repeat split; try done.
    intros i c Hc. rewrite Hc. simpl. rewrite Z.add_0_r. f_equal. symmetry.
    apply wrap_small. apply count_at_Some in Hc as [_ Hc].
    by apply (proj1 (Forall_lookup _ _) Hr _ _ Hc).
  - apply Forall_cons in Hb as [He Hb]. destruct e as [f|f]; simpl in He.
    + destruct (count_at_in_bounds s f He) as [cf Hcf].
      pose proof (enter_defined tt tt _ _ _ Hcf) as E.
      pose proof (enter_length tt tt _ _ _ E) as Hlen.
      destruct (IH _ ltac:(by rewrite Hlen)
                  ltac:(by apply Forall_insert; [|apply wrap_in_range]))
        as (s' & Hrun & Hnm & Hl & Hr' & Hcnt).
      exists s'. split; [|split; [|split; [|split]]]; try done.
      * cbn [run_trace run_event]. unfold seq_stmt. rewrite E. exact Hrun.
      * by rewrite Hl, Hlen.
      * intros i c Hc. cbn [enters_of]. case_decide as Hfi.
        -- subst i. rewrite Hcf in Hc. injection Hc as <-.
           rewrite (Hcnt f _ (enter_count_same tt tt _ _ _ _ Hcf E)).
           unfold CInt.incr. rewrite wrap_add_wrap. f_equal. f_equal. lia.
        -- rewrite (Hcnt i c); [done|].
           rewrite (enter_count_other tt tt _ _ _ _ E); [done|congruence].
    + destruct (IH s Hb Hr) as (s' & Hrun & Hrest).
      exists s'. split; [|done]. cbn [run_trace run_event]. exact Hrun.
Qed.

(** After any run of enters and exits with identifiers in [[0, 285)], in any
    interleaving, from the start state: the run is defined, and the report
    shows for each identifier its name with the number of times the run
    entered it, as long as that number is at most [INT_MAX]. Exits, and
    enters of other identifiers, do not count. *)
Theorem report_after_trace (t : list event) (i : Z) :
  trace_in_bounds OS_nativeFunctionCount t ->
  0 <= i < OS_nativeFunctionCount ->
  enters_of i t <= CInt.INT_MAX ->
  exists s' name,
    run_trace NATIVE_STATS_defined t initial_state = Some s' /\
    valid_state s' /\
    name_table !! Z.to_nat i = Some name /\
    count_at s' i = Some (enters_of i t) /\
    report_at s' i = Some (name, enters_of i t).
Proof.
  intros Hb Hi Hmax.
  destruct initial_state_valid as [[Hl1 Hl2] Hr].
  destruct (run_trace_counts t initial_state ltac:(by rewrite Hl1) Hr)
    as (s' & Hrun & Hnm & Hlen & Hr' & Hcnt).
  assert (Hc0 : count_at initial_state i = Some 0).
  { apply count_at_Some. rewrite initial_state_counts, length_replicate.
    unfold OS_nativeFunctionCount in Hi. split; [lia|].
    apply lookup_replicate_2. lia. }
  destruct (valid_state_name_at _ _ initial_state_valid Hi) as [name Hname].
  assert (Hci : count_at s' i = Some (enters_of i t)).
  { rewrite (Hcnt i 0 Hc0). f_equal. simpl. apply wrap_small.
    pose proof (enters_of_nonneg i t).
    unfold CInt.in_range, CInt.INT_MIN, CInt.INT_MAX in *. lia. }
  exists s', name. split; [done|]. split; [|split; [done|split; [done|]]].
  - split; [split|done]; [by rewrite Hlen|by rewrite Hnm].
  - apply report_at_Some. rewrite Hnm. split; [lia|done].
Qed.

Lemma report_after_trace_witness :
  exists s' name,
    run_trace NATIVE_STATS_defined
      [Enter PtInit_FUNC; Enter PtMainLoop_FUNC; Exit PtMainLoop_FUNC;
       Exit PtInit_FUNC; Enter PtInit_FUNC; Exit PtInit_FUNC]
      initial_state = Some s' /\
    valid_state s' /\
    name_table !! Z.to_nat PtInit_FUNC = Some name /\
    count_at s' PtInit_FUNC
      = Some (enters_of PtInit_FUNC
                [Enter PtInit_FUNC; Enter PtMainLoop_FUNC; Exit PtMainLoop_FUNC;
                 Exit PtInit_FUNC; Enter PtInit_FUNC; Exit PtInit_FUNC]) /\
    report_at s' PtInit_FUNC
      = Some (name, enters_of PtInit_FUNC
                [Enter PtInit_FUNC; Enter PtMainLoop_FUNC; Exit PtMainLoop_FUNC;
                 Exit PtInit_FUNC; Enter PtInit_FUNC; Exit PtInit_FUNC]).
Proof.
  apply (report_after_trace
           [Enter PtInit_FUNC; Enter PtMainLoop_FUNC; Exit PtMainLoop_FUNC;
            Exit PtInit_FUNC; Enter PtInit_FUNC; Exit PtInit_FUNC] PtInit_FUNC).
  - repeat constructor; vm_compute; congruence.
  - unfold PtInit_FUNC, OS_nativeFunctionCount. lia.
  - vm_compute. congruence.
Defined.

(** ** The total of the counters *)

Lemma total_insert (l : list Z) : forall i c c',
  l !! i = Some c ->
  foldr Z.add 0 (<[i := c']> l) = foldr Z.add 0 l - c + c'.
Proof.
  induction l as [|x l IH]; intros [|i] c c' Hl; simpl in *; try done.
  - injection Hl as ->. lia.
  - rewrite (IH i c c' Hl). lia.
Qed.

Lemma member_le_total (l : list Z) : forall i c,
  Forall (Z.le 0) l -> l !! i = Some c -> c <= foldr Z.add 0 l.
Proof.
  induction l as [|x l IH]; intros [|i] c Hnn Hl; simpl in *; try done;
    apply Forall_cons in Hnn as [Hx Hnn].
  - injection Hl as ->.
    assert (0 <= foldr Z.add 0 l); [|lia].
    clear IH. induction Hnn; simpl; lia.
  - specialize (IH i c Hnn Hl). lia.
Qed.

(** From a table of non-negative counters, a run of in-bounds events whose
    enters fit below [INT_MAX] together with the counts already there is
    defined, keeps every counter non-negative, and raises the sum of all
    counters by exactly the number of its enters: no call is lost and no
    counter overflows. *)
Theorem total_count_after_trace (t : list event) : forall (s : state),
  trace_in_bounds (Z.of_nat (length (OS_nativeFunctionCallCount s))) t ->
  Forall (Z.le 0) (OS_nativeFunctionCallCount s) ->
  total_count s + enters t <= CInt.INT_MAX ->
  exists s',
    run_trace NATIVE_STATS_defined t s = Some s' /\
    Forall (Z.le 0) (OS_nativeFunctionCallCount s') /\
    total_count s' = total_count s + enters t.
Proof.
  induction t as [|e t IH]; intros s Hb Hnn Hmax.
  - exists s. simpl. repeat split; [done|lia].
  - apply Forall_cons in Hb as [He Hb]. destruct e as [f|f]; simpl in He.
    + destruct (count_at_in_bounds s f He) as [cf Hcf].
      pose proof (enter_defined tt tt _ _ _ Hcf) as E.
      pose proof (enter_length tt tt _ _ _ E) as Hlen.
      apply count_at_Some in Hcf as [_ Hcf].
      pose proof (member_le_total _ _ _ Hnn Hcf) as Hle.
      pose proof (proj1 (Forall_lookup _ _) Hnn _ _ Hcf) as Hcf0. simpl in Hcf0.
      pose proof (enters_nonneg t) as Ht.
      cbn [enters] in Hmax. unfold total_count in *.
      assert (Hincr : CInt.incr cf = cf + 1).
      { apply incr_below_max. unfold CInt.INT_MIN, CInt.INT_MAX in *. lia. }
      rewrite Hincr in E, Hlen.
      destruct (IH (mkState (<[Z.to_nat f := cf + 1]> (OS_nativeFunctionCallCount s))
                            (OS_nativeFunctionNames s)))
        as (s' & Hrun & Hnn' & Htot).
      * by rewrite Hlen.
      * simpl. apply Forall_insert; [done|]. lia.
      * simpl. rewrite (total_insert _ _ _ _ Hcf). lia.
      * exists s'. split; [|split; [done|]].
        -- cbn [run_trace run_event]. unfold seq_stmt. rewrite E. exact Hrun.
        -- rewrite Htot. simpl. rewrite (total_insert _ _ _ _ Hcf).
           cbn [enters]. lia.
    + destruct (IH s Hb Hnn Hmax) as (s' & Hrun & Hrest).
      exists s'. split; [|done]. cbn [run_trace run_event]. exact Hrun.
Qed.

Lemma total_count_after_trace_witness :
  exists s',
    run_trace NATIVE_STATS_defined
      [Enter PtInit_FUNC; Exit PtInit_FUNC; Enter PtMainLoop_FUNC] initial_state
      = Some s' /\
    Forall (Z.le 0) (OS_nativeFunctionCallCount s') /\
    total_count s'
      = total_count initial_state
        + enters [Enter PtInit_FUNC; Exit PtInit_FUNC; Enter PtMainLoop_FUNC].
Proof.
  apply (total_count_after_trace
           [Enter PtInit_FUNC; Exit PtInit_FUNC; Enter PtMainLoop_FUNC] initial_state).
  - repeat constructor; vm_compute; congruence.
  - rewrite initial_state_counts. apply Forall_replicate. lia.
  - vm_compute. congruence.
Defined.

(** ** The period of a counter *)

Lemma wrap_add_modulus z : CInt.wrap (z + CInt.modulus) = CInt.wrap z.
Proof.
  unfold CInt.wrap. f_equal.
  replace (z + CInt.modulus - CInt.INT_MIN)
    with (z - CInt.INT_MIN + 1 * CInt.modulus) by lia.
  apply Z_mod_plus_full.
Qed.

(** Counts are kept modulo [2^32]: from any table of [int] counters, [2^32]
    further enters of an identifier of the table bring every counter, and so
    the whole report, back to what it was after the first [k]. *)
Theorem enter_period_2p32 {Env That : Type} (env : Env) (that : That)
    (k : nat) (s : state) (func c : Z) :
  count_at s func = Some c ->
  CInt.in_range c ->
  exists s1 s2,
    repeat_stmt k (OS_NATIVE_ENTER NATIVE_STATS_defined env that func) s = Some s1 /\
    repeat_stmt (k + Z.to_nat CInt.modulus)
      (OS_NATIVE_ENTER NATIVE_STATS_defined env that func) s = Some s2 /\
    OS_nativeFunctionNames s2 = OS_nativeFunctionNames s1 /\
    forall j, count_at s2 j = count_at s1 j /\ report_at s2 j = report_at s1 j.
Proof.
  intros Hc Hr.
  destruct (repeat_enter env that k _ _ _ Hc Hr) as (s1 & Hrun1 & Hc1 & Ho1 & Hn1 & _).
  destruct (repeat_enter env that (k + Z.to_nat CInt.modulus) _ _ _ Hc Hr)
    as (s2 & Hrun2 & Hc2 & Ho2 & Hn2 & _).
  rewrite Nat2Z.inj_add, Z2Nat.id, Z.add_assoc, wrap_add_modulus in Hc2
    by (vm_compute; congruence).
  assert (Hn : OS_nativeFunctionNames s2 = OS_nativeFunctionNames s1)
    by (rewrite Hn1; exact Hn2).
  assert (Hj : forall j, count_at s2 j = count_at s1 j).
  { intros j. destruct (decide (j = func)) as [->|Hne].
    - rewrite Hc1. exact Hc2.
    - rewrite (Ho1 j Hne). exact (Ho2 j Hne). }
  exists s1, s2. split; [exact Hrun1|]. split; [exact Hrun2|]. split; [exact Hn|].
  intros j. split; [exact (Hj j)|]. apply report_at_unchanged; [exact Hn|exact (Hj j)].
Qed.

Lemma enter_period_2p32_witness :
  exists s1 s2,
    repeat_stmt 1 (OS_NATIVE_ENTER NATIVE_STATS_defined tt tt PtInit_FUNC)
      initial_state = Some s1 /\
    repeat_stmt (1 + Z.to_nat CInt.modulus)
      (OS_NATIVE_ENTER NATIVE_STATS_defined tt tt PtInit_FUNC) initial_state = Some s2 /\
    OS_nativeFunctionNames s2 = OS_nativeFunctionNames s1 /\
    forall j, count_at s2 j = count_at s1 j /\ report_at s2 j = report_at s1 j.
Proof.
  apply (enter_period_2p32 tt tt 1 initial_state PtInit_FUNC 0).
  - vm_compute. reflexivity.
  - unfold CInt.in_range, CInt.INT_MIN, CInt.INT_MAX. lia.
Defined.

(** ** Names and identifiers determine each other *)

Lemma FUNC_macros_NoDup : NoDup (fst <$> FUNC_defines).
Proof. apply (bool_decide_unpack _). vm_compute. exact I. Qed.

Lemma identifier_of_NoDup (l : list (string * Z)) :
  NoDup (fst <$> l) ->
  forall k v, (k, v) ∈ l -> identifier_of l k = Some v.
Proof.
  induction l as [|[n w] l IH]; intros Hnd k v Hin.
  - by apply elem_of_nil in Hin.
  - simpl in Hnd. apply NoDup_cons in Hnd as [Hn Hnd]. simpl.
    apply elem_of_cons in Hin as [[= -> ->]|Hin].
    + by rewrite String.eqb_refl.
    + destruct (String.eqb_spec n k) as [->|Hne].
      * exfalso. apply Hn. apply list_elem_of_fmap. by exists (k, v).
      * by apply IH.
Qed.

(** Every constant of the header can be found from either side: its macro
    name is defined once and resolves to its value, the name table holds its
    entry-point name at that value, and no other identifier has that name. *)
Theorem FUNC_name_identifier_round_trip (macro : string) (v : Z) :
  (macro, v) ∈ FUNC_defines ->
  identifier_of FUNC_defines macro = Some v /\
  name_table !! Z.to_nat v = Some (entry_point_name macro) /\
  forall w, 0 <= w ->
    name_table !! Z.to_nat w = Some (entry_point_name macro) -> w = v.
Proof.
  intros Hin. split; [|split].
  - by apply (identifier_of_NoDup _ FUNC_macros_NoDup).
  - by apply FUNC_names_lookup.
  - intros w Hw Hl.
    pose proof (FUNC_names_lookup _ _ Hin) as Hv.
    pose proof (FUNC_defines_lookup _ _ Hin) as [Hv0 _].
    pose proof (StronglySorted_lookup_lt _ _ FUNC_names_sorted) as Hsorted.
    unfold name_table in Hl.
    destruct (Z.lt_total w v) as [Hlt|[Heq|Hgt]]; [|done|].
    + exfalso. apply (bytes_lt_irrefl (entry_point_name macro)).
      apply (Hsorted _ _ _ _ Hl Hv). lia.
    + exfalso. apply (bytes_lt_irrefl (entry_point_name macro)).
      apply (Hsorted _ _ _ _ Hv Hl). lia.
Qed.

Lemma FUNC_name_identifier_round_trip_witness :
  identifier_of FUNC_defines "PtInit_FUNC" = Some PtInit_FUNC /\
  name_table !! Z.to_nat PtInit_FUNC = Some (entry_point_name "PtInit_FUNC") /\
  forall w, 0 <= w ->
    name_table !! Z.to_nat w = Some (entry_point_name "PtInit_FUNC") ->
    w = PtInit_FUNC.
Proof.
  apply (FUNC_name_identifier_round_trip "PtInit_FUNC" PtInit_FUNC).
  apply (list_elem_of_lookup_2 _ 164). reflexivity.
Defined.
